(** * Amazons API: a shallow embedding of [main.py] and [schemas.py]

    The request handlers of [main.py] are embedded as functions over an
    explicit database state.  Python values that travel through
    dictionaries are a small tagged union, dictionaries are finite maps
    keyed by strings, pydantic models are records, and a handler returns
    either a value, an [HTTPException] or an exception it does not catch. *)

From Stdlib Require Import ZArith NArith List String Ascii Bool Lia.
From Stdlib Require Import PrimFloat SpecFloat FloatOps.
From stdpp Require Import gmap strings list fin_maps.

Local Open Scope Z_scope.
Local Open Scope string_scope.

(** ** Outcome of a handler *)

(** Exceptions that no handler catches; FastAPI answers them with a bare
    500 response. *)
Inductive exn : Type :=
| ValidationError      (* pydantic: a model constructor rejected a field *)
| OverflowError        (* int too large for a float, or for BSON *)
| ValueError           (* pymongo: skip must be >= 0; passlib: a password or
                          a hash it refuses (PasswordValueError and
                          InvalidHashError are ValueErrors) *)
| KeyError             (* subscript of a missing dictionary key *)
| NotImplementedError  (* pymongo: truth value of a Database *)
| OperationFailure.    (* pymongo: the server refused the command *)

Inductive result (A : Type) : Type :=
| Ok (a : A)
| HTTPException (status_code : Z) (detail : string)
| Uncaught (e : exn).
Arguments Ok {A} a.
Arguments HTTPException {A} status_code detail.
Arguments Uncaught {A} e.

(** Sequencing: the first exception ends the computation. *)
Definition bind {A B : Type} (r : result A) (k : A -> result B) : result B :=
  match r with
  | Ok a => k a
  | HTTPException c m => HTTPException c m
  | Uncaught e => Uncaught e
  end.

Notation "x <- r ;; k" := (bind r (fun x => k))
  (at level 100, r at next level, right associativity).

(** ** Python strings *)

(** A [str] is held as its UTF-8 bytes.  [len] counts characters, which
    are the bytes that are not continuation bytes [10xxxxxx]. *)
Definition continuation (c : ascii) : bool := (N_of_ascii c / 64 =? 2)%N.

Fixpoint py_len (s : string) : nat :=
  match s with
  | EmptyString => O
  | String c s' => if continuation c then py_len s' else S (py_len s')
  end.

Fixpoint str_mem (c : ascii) (s : string) : bool :=
  match s with
  | EmptyString => false
  | String x s' => Ascii.eqb c x || str_mem c s'
  end.

(** ** bson.ObjectId *)

(** An [ObjectId] that the driver generates is twelve bytes, read here as
    one number below [2^96]; [str(oid)] prints them as 24 hexadecimal
    digits in lower case. *)
Definition ObjectId : Type := N.

Definition hex_value (c : ascii) : option N :=
  let n := N_of_ascii c in
  if ((48 <=? n) && (n <=? 57))%N then Some (n - 48)%N
  else if ((97 <=? n) && (n <=? 102))%N then Some (n - 87)%N
  else if ((65 <=? n) && (n <=? 70))%N then Some (n - 55)%N
  else None.

(** The ASCII whitespace: space, and tab to carriage return. *)
Definition is_space (c : ascii) : bool :=
  let n := N_of_ascii c in ((n =? 32) || ((9 <=? n) && (n <=? 13)))%N.

(** [bytes.fromhex]: two hexadecimal digits make a byte, and whitespace
    in front of a byte or at the end is skipped; anything else, a blank
    between the two digits of a byte included, is an error. *)
Fixpoint fromhex (s : string) : option (list N) :=
  match s with
  | EmptyString => Some []
  | String c s' =>
      if is_space c then fromhex s'
      else
        match hex_value c, s' with
        | Some top, String c' s'' =>
            match hex_value c', fromhex s'' with
            | Some bot, Some rest => Some ((16 * top + bot)%N :: rest)
            | _, _ => None
            end
        | _, _ => None
        end
  end.

(** [ObjectId(s)] for a str [s]: it is accepted when [len(s) == 24] and
    [bytes.fromhex(s)] succeeds, and holds the bytes read, which are twelve
    for 24 digits and fewer when [s] has blanks in it. *)
Definition ObjectId_of_str (s : string) : option (list N) :=
  if Nat.eqb (py_len s) 24 then fromhex s else None.

(** The twelve bytes of a generated identifier. *)
Fixpoint bytes_of (n : nat) (o : N) (acc : list N) : list N :=
  match n with
  | O => acc
  | S k => bytes_of k (o / 256)%N ((o mod 256)%N :: acc)
  end.

Definition binary (o : ObjectId) : list N := bytes_of 12 o [].

Fixpoint bytes_eqb (a b : list N) : bool :=
  match a, b with
  | [], [] => true
  | x :: a', y :: b' => N.eqb x y && bytes_eqb a' b'
  | _, _ => false
  end.

Definition hex_digit (n : N) : ascii :=
  ascii_of_N (if (n <? 10)%N then 48 + n else 87 + n)%N.

Fixpoint hex_encode (digits : nat) (n : N) (acc : string) : string :=
  match digits with
  | O => acc
  | S k => hex_encode k (n / 16)%N (String (hex_digit (n mod 16)%N) acc)
  end.

Definition str_ObjectId (o : ObjectId) : string := hex_encode 24 o "".

(** ** Python values and dictionaries *)

Inductive value : Type :=
| VNone
| VBool (b : bool)
| VInt (z : Z)
| VFloat (f : float)
| VStr (s : string)
| VObjectId (o : ObjectId).

(** A document, and any other [dict] with string keys. *)
Abbreviation document := (gmap string value).

Definition opt_str (o : option string) : value :=
  match o with Some s => VStr s | None => VNone end.

(** Truth value of a string, of an [Optional[str]] and of the result of
    [find_one] (a dictionary or [None]). *)
Definition str_truthy (s : string) : bool := negb (String.eqb s "").

Definition opt_truthy (o : option string) : bool :=
  match o with Some s => str_truthy s | None => false end.

Definition doc_truthy (o : option document) : bool :=
  match o with Some d => negb (Nat.eqb (size d) 0) | None => false end.

Definition bool_str (b : bool) : string := if b then "True" else "False".

Definition digit_char (n : N) : ascii := ascii_of_N (48 + n).

Fixpoint pos_digits (fuel : nat) (n : N) (acc : string) : string :=
  match fuel with
  | O => acc
  | S k =>
      let acc' := String (digit_char (n mod 10)%N) acc in
      if (n / 10 =? 0)%N then acc' else pos_digits k (n / 10)%N acc'
  end.

(** [str] of an int: its decimal digits. *)
Definition int_str (z : Z) : string :=
  let n := Z.to_N (Z.abs z) in
  let ds := pos_digits (S (N.to_nat (N.log2 n))) n "" in
  if (z <? 0)%Z then String "-" ds else ds.

(** ** Regular expressions of [$regex]

    MongoDB hands the pattern to PCRE.  The patterns made of ordinary
    characters and the dot are spelled out here; [regex_parse] answers
    [None] on a pattern with any other metacharacter, which is left to
    the engine, a collaborator below. *)
Inductive atom : Type :=
| Lit (c : ascii)
| AnyChar.

Definition metachars : string := "\^$.|?*+()[]{}".

Definition parse_atom (c : ascii) : option atom :=
  if Ascii.eqb c "." then Some AnyChar
  else if str_mem c metachars then None
  else Some (Lit c).

Fixpoint regex_parse (p : string) : option (list atom) :=
  match p with
  | EmptyString => Some []
  | String c p' =>
      match parse_atom c, regex_parse p' with
      | Some a, Some r => Some (a :: r)
      | _, _ => None
      end
  end.

(** Caseless matching folds the ASCII letters. *)
Definition lower (c : ascii) : ascii :=
  let n := N_of_ascii c in
  if ((65 <=? n) && (n <=? 90))%N then ascii_of_N (n + 32) else c.

Fixpoint lower_str (s : string) : string :=
  match s with
  | EmptyString => EmptyString
  | String c s' => String (lower c) (lower_str s')
  end.

Definition atom_match (caseless : bool) (a : atom) (c : ascii) : bool :=
  match a with
  | Lit x => if caseless then Ascii.eqb (lower x) (lower c) else Ascii.eqb x c
  | AnyChar => negb (Ascii.eqb c "010")
  end.

Fixpoint match_here (caseless : bool) (r : list atom) (t : string) : bool :=
  match r, t with
  | [], _ => true
  | a :: r', String c t' => atom_match caseless a c && match_here caseless r' t'
  | _ :: _, EmptyString => false
  end.

(** An unanchored pattern matches when it matches at some offset. *)
Fixpoint regex_search (caseless : bool) (r : list atom) (t : string) : bool :=
  match_here caseless r t
  || match t with
     | EmptyString => false
     | String _ t' => regex_search caseless r t'
     end.

(** ** External collaborators *)

(** What the handlers take from passlib, from the database server and
    from the interpreter without this development spelling it out:
    - [bcrypt_hash salt secret], the hash that [bcrypt.hash] computes for
      a secret it accepts, the random salt it draws being an argument;
    - [bcrypt_verify secret hash], the answer of [bcrypt.verify] for a
      secret it accepts, or [None] when [hash] is not a bcrypt hash;
    - [float_repr], [repr] of a float;
    - [pcre_compile pattern options], the matcher that the server's regex
      engine builds for a pattern outside the fragment spelled out above,
      or [None] when it rejects the pattern;
    - [single_batch docs], how many of the documents [docs] the server
      puts in the one batch that a negative limit asks for. *)
Class Collaborators : Type := {
  bcrypt_hash : string -> string -> string;
  bcrypt_verify : string -> string -> option bool;
  float_repr : float -> string;
  pcre_compile : string -> string -> option (string -> bool);
  single_batch : list document -> nat }.

(** ** Queries of pymongo *)

(** The values this application puts in an equality condition: a string,
    or the bytes of an [ObjectId] parsed from a string. *)
Inductive operand : Type :=
| OStr (s : string)
| OId (bytes : list N).

(** A query document is a list of entries that must all hold; the empty
    dictionary [{}] is the empty list and holds of every document. *)
#[warnings="-register-all"]
Inductive clause : Type :=
| FieldEq (field : string) (v : operand)                 (* {field: v} *)
| FieldRegex (field : string) (pattern options : string) (* {field: {"$regex": .., "$options": ..}} *)
| QOr (alternatives : list (list clause)).               (* {"$or": [..]} *)

Abbreviation query := (list clause).

Definition operand_matches (v : operand) (stored : option value) : bool :=
  match v, stored with
  | OStr s, Some (VStr s') => String.eqb s s'
  | OId b, Some (VObjectId o') => bytes_eqb b (binary o')
  | _, _ => false
  end.

Section Queries.
Context `{Collaborators}.

Definition regex_matches (pattern options : string) (stored : option value) : bool :=
  match stored with
  | Some (VStr s) =>
      match regex_parse pattern with
      | Some r => regex_search (str_mem "i" options) r s
      | None =>
          match pcre_compile pattern options with
          | Some matcher => matcher s
          | None => false
          end
      end
  | _ => false
  end.

Fixpoint clause_matches (d : document) (c : clause) : bool :=
  match c with
  | FieldEq k v => operand_matches v (d !! k)
  | FieldRegex k p o => regex_matches p o (d !! k)
  | QOr alts => existsb (fun q => forallb (clause_matches d) q) alts
  end.

Definition query_matches (q : query) (d : document) : bool :=
  forallb (clause_matches d) q.

(** The server refuses a query that holds a pattern its regex engine
    rejects. *)
Fixpoint clause_valid (c : clause) : bool :=
  match c with
  | FieldEq _ _ => true
  | FieldRegex _ p o =>
      match regex_parse p, pcre_compile p o with
      | None, None => false
      | _, _ => true
      end
  | QOr alts => forallb (fun q => forallb clause_valid q) alts
  end.

(** [collection.find(q)] keeps the stored order; [find_one] is the first
    match or [None]. *)
Definition find (q : query) (docs : list document) : list document :=
  List.filter (query_matches q) docs.

Definition find_one (q : query) (docs : list document) : option document :=
  List.find (query_matches q) docs.

(** [cursor.skip(n)] raises [ValueError] on a negative [n]. *)
Definition cursor_skip (n : Z) (docs : list document) : result (list document) :=
  if (n <? 0)%Z then Uncaught ValueError else Ok (skipn (Z.to_nat n) docs).

(** [cursor.limit(n)]: [0] means no limit, and a negative [n] asks the
    server for a single batch of at most [abs(n)] documents. *)
Definition cursor_limit (n : Z) (docs : list document) : list document :=
  if (n =? 0)%Z then docs
  else if (0 <? n)%Z then firstn (Z.to_nat n) docs
  else let page := firstn (Z.to_nat (Z.abs n)) docs in
       firstn (single_batch page) page.

End Queries.

(** BSON has no int wider than eight bytes: pymongo raises
    [OverflowError] when it has to encode one, in a document or in the
    skip and limit of a find command, which carries [abs(limit)]. *)
Definition int64 (n : Z) : bool := (- 2 ^ 63 <=? n)%Z && (n <? 2 ^ 63)%Z.

Definition find_command_ok (skip limit : Z) : bool :=
  int64 skip && int64 (Z.abs limit).

(** ** Python numbers *)

(** [float(n)] for an int [n], as the product of a float and an int needs
    it: the nearest binary64 value, or [OverflowError] when [n] is too
    large to have one, which is from [2^1024 - 2^970] on, the first int
    that rounds beyond the largest float. *)
Definition float_of_Z (n : Z) : float :=
  SF2Prim (binary_normalize prec emax n 0 false).

Definition float_of_int (n : Z) : result float :=
  if (Z.abs n <? 2 ^ 1024 - 2 ^ 970)%Z
  then Ok (float_of_Z n)
  else Uncaught OverflowError.

(** [price * quantity] with a float on the left and an int on the right. *)
Definition float_mul_int (x : float) (n : Z) : result float :=
  f <- float_of_int n ;; Ok (PrimFloat.mul x f).

(** The builtin [sum] over floats: it starts from the int [0] and adds
    the items from left to right in binary64.  (CPython 3.12 and later
    carry a compensation term along, which can change the last bit of a
    sum that is not exact; this is the plain accumulation.) *)
Definition py_sum (xs : list float) : value :=
  match xs with
  | [] => VInt 0
  | x :: xs' => VFloat (fold_left PrimFloat.add xs' (PrimFloat.add 0 x))
  end.

(** A pydantic [float] field given an int or a float. *)
Definition as_float (v : value) : float :=
  match v with
  | VFloat f => f
  | VInt z => float_of_Z z
  | _ => PrimFloat.nan
  end.

(** ** schemas.py *)

Module User.
Record t : Type := mk {
  username : string;
  email : option string;
  phone : option string;
  password_hash : string;
  name : option string;
  is_active : bool;
  is_admin : bool }.

(** [User(username=.., email=.., phone=.., password_hash=.., name=..)]:
    [username] has [min_length=3] and [max_length=32], counted in
    characters, and the two flags take their defaults. *)
Definition new (username : string) (email phone : option string)
    (password_hash : string) (name : option string) : result t :=
  if (3 <=? py_len username)%nat && (py_len username <=? 32)%nat
  then Ok (mk username email phone password_hash name true false)
  else Uncaught ValidationError.

Definition model_dump (u : t) : document :=
  <["username" := VStr (username u)]>
  (<["email" := opt_str (email u)]>
  (<["phone" := opt_str (phone u)]>
  (<["password_hash" := VStr (password_hash u)]>
  (<["name" := opt_str (name u)]>
  (<["is_active" := VBool (is_active u)]>
  (<["is_admin" := VBool (is_admin u)]> ∅)))))).
End User.

Module Product.
Record t : Type := mk {
  title : string;
  description : option string;
  price : float;
  category : string;
  image : option string;
  rating : option float;
  rating_count : option Z;
  in_stock : bool }.

(** [Product(title=.., description=.., price=.., category=.., image=..)]:
    [price] has [ge=0], which a NaN fails like a negative number; rating,
    rating_count and in_stock take their defaults 4.5, 0 and True. *)
Definition new (title : string) (description : option string) (price : float)
    (category : string) (image : option string) : result t :=
  if PrimFloat.leb 0 price
  then Ok (mk title description price category image (Some 4.5%float) (Some 0%Z) true)
  else Uncaught ValidationError.

Definition model_dump (p : t) : document :=
  <["title" := VStr (title p)]>
  (<["description" := opt_str (description p)]>
  (<["price" := VFloat (price p)]>
  (<["category" := VStr (category p)]>
  (<["image" := opt_str (image p)]>
  (<["rating" := match rating p with Some r => VFloat r | None => VNone end]>
  (<["rating_count" := match rating_count p with Some n => VInt n | None => VNone end]>
  (<["in_stock" := VBool (in_stock p)]> ∅))))))).
End Product.

Module Category.
Record t : Type := mk { name : string; slug : string }.

Definition model_dump (c : t) : document :=
  <["name" := VStr (name c)]> (<["slug" := VStr (slug c)]> ∅).
End Category.

Module OrderItem.
Record t : Type := mk {
  product_id : string;
  title : string;
  price : float;
  quantity : Z;
  image : option string }.
End OrderItem.

Module Order.
Record t : Type := mk {
  user_id : string;
  items : list OrderItem.t;
  total : float;
  address : string;
  status : string }.

(** [Order(user_id=.., items=.., total=.., address=..)]: no field is
    constrained, [total] is read as a float and [status] defaults to
    ["placed"]. *)
Definition new (user_id : string) (items : list OrderItem.t) (total : value)
    (address : string) : t :=
  mk user_id items (as_float total) address "placed".
End Order.

(** ** Request bodies of main.py *)

Module SignupRequest.
Record t : Type := mk {
  username : string;
  password : string;
  email : option string;
  phone : option string;
  name : option string }.
End SignupRequest.

Module LoginRequest.
Record t : Type := mk {
  username : option string;
  phone : option string;
  password : string }.
End LoginRequest.

Module CreateCategory.
Record t : Type := mk { name : string; slug : string }.
End CreateCategory.

Module CreateProduct.
Record t : Type := mk {
  title : string;
  description : option string;
  price : float;
  category : string;
  image : option string }.
End CreateProduct.

Module CheckoutRequest.
Record t : Type := mk {
  user_id : string;
  items : list OrderItem.t;
  address : string }.
End CheckoutRequest.

(** ** database.py *)

(** Modelled from the spec: [database.py], which defines the handle [db],
    is not among the sources.  The spec describes a document store whose
    collections are queried by filter and keep insertion order, behind a
    module-level handle that is [None] when the database is not
    configured, and otherwise a pymongo [Database], as the subscripts
    [db["user"]] and the call [db.list_collection_names()] of [main.py]
    show.  A collection holds the documents that the models of
    [schemas.py] dump, each under the [ObjectId] that [insert_one] gave
    it; [next_oid] stands for the driver's supply of fresh identifiers. *)
Record Database : Type := mkDatabase {
  db_user : list (ObjectId * User.t);
  db_category : list (ObjectId * Category.t);
  db_product : list (ObjectId * Product.t);
  db_order : list (ObjectId * Order.t);
  next_oid : N }.

Definition fresh_oid (d : Database) : ObjectId := (next_oid d mod 2 ^ 96)%N.

(** [db[..].insert_one(doc)]: the document goes last in its collection;
    the result is [inserted_id] and the new state. *)
Definition insert_user (u : User.t) (d : Database) : ObjectId * Database :=
  (fresh_oid d,
   mkDatabase (db_user d ++ [(fresh_oid d, u)]) (db_category d) (db_product d)
     (db_order d) (next_oid d + 1)).

Definition insert_category (c : Category.t) (d : Database) : ObjectId * Database :=
  (fresh_oid d,
   mkDatabase (db_user d) (db_category d ++ [(fresh_oid d, c)]) (db_product d)
     (db_order d) (next_oid d + 1)).

Definition insert_product (p : Product.t) (d : Database) : ObjectId * Database :=
  (fresh_oid d,
   mkDatabase (db_user d) (db_category d) (db_product d ++ [(fresh_oid d, p)])
     (db_order d) (next_oid d + 1)).

(** An order is the one document here that carries ints from a request:
    a quantity wider than eight bytes cannot be encoded. *)
Definition insert_order (o : Order.t) (d : Database) : result (ObjectId * Database) :=
  if forallb (fun item => int64 (OrderItem.quantity item)) (Order.items o)
  then Ok (fresh_oid d,
           mkDatabase (db_user d) (db_category d) (db_product d)
             (db_order d ++ [(fresh_oid d, o)]) (next_oid d + 1))
  else Uncaught OverflowError.

(** The truth value of the handle, which [main.py] also tests with
    [if db]: pymongo's [Database] defines [__bool__] to raise
    [NotImplementedError] ("Database objects do not implement truth value
    testing or bool(). Please compare with None instead"), whatever the
    database holds. *)
Definition Database_bool (d : Database) : result bool :=
  Uncaught NotImplementedError.

(** The documents of a collection as pymongo returns them: the dumped
    model together with its ["_id"]. *)
Definition with_id (o : ObjectId) (body : document) : document :=
  <["_id" := VObjectId o]> body.

Definition user_docs (d : Database) : list document :=
  map (fun x => with_id (fst x) (User.model_dump (snd x))) (db_user d).

Definition category_docs (d : Database) : list document :=
  map (fun x => with_id (fst x) (Category.model_dump (snd x))) (db_category d).

Definition product_docs (d : Database) : list document :=
  map (fun x => with_id (fst x) (Product.model_dump (snd x))) (db_product d).

Section Handlers.
Context `{Collaborators}.

(** The builtin [str]. *)
Definition py_str (v : value) : string :=
  match v with
  | VNone => "None"
  | VBool b => bool_str b
  | VInt z => int_str z
  | VFloat f => float_repr f
  | VStr s => s
  | VObjectId o => str_ObjectId o
  end.

(** [to_str_id]: a copy of the dictionary in which the key ["_id"] is
    popped and its string form stored under ["id"]. *)
Definition to_str_id (doc : option document) : option document :=
  match doc with
  | None => None
  | Some d =>
      match d !! "_id" with
      | Some v => Some (<["id" := VStr (py_str v)]> (delete "_id" d))
      | None => Some d
      end
  end.

(** *** passlib.hash.bcrypt *)

(** [bcrypt.hash] and [bcrypt.verify] refuse a secret of more than 4096
    characters and a secret with a NUL in it; [bcrypt.verify] also
    refuses a hash that is not a bcrypt hash.  Each refusal is a
    [ValueError]. *)
Definition secret_accepted (secret : string) : bool :=
  (py_len secret <=? 4096)%nat && negb (str_mem "000" secret).

Definition passlib_hash (salt secret : string) : result string :=
  if secret_accepted secret then Ok (bcrypt_hash salt secret)
  else Uncaught ValueError.

Definition passlib_verify (secret hash : string) : result bool :=
  if secret_accepted secret
  then match bcrypt_verify secret hash with
       | Some b => Ok b
       | None => Uncaught ValueError
       end
  else Uncaught ValueError.

(** *** Auth endpoints *)

Definition signup_query (payload : SignupRequest.t) : query :=
  [QOr [ [FieldEq "username" (OStr (SignupRequest.username payload))];
         match SignupRequest.phone payload with
         | Some p => if str_truthy p then [FieldEq "phone" (OStr p)] else []
         | None => []
         end;
         match SignupRequest.email payload with
         | Some e => if str_truthy e then [FieldEq "email" (OStr e)] else []
         | None => []
         end ]].

Definition signup (salt : string) (payload : SignupRequest.t) (db : option Database)
  : result document * option Database :=
  match db with
  | None => (HTTPException 500 "Database not configured", db)
  | Some d =>
      if negb (str_truthy (SignupRequest.username payload))
         || negb (str_truthy (SignupRequest.password payload))
      then (HTTPException 400 "Username and password required", db)
      else
        let existing := find_one (signup_query payload) (user_docs d) in
        if doc_truthy existing
        then (HTTPException 409 "Account already exists", db)
        else
          match
            password_hash <- passlib_hash salt (SignupRequest.password payload) ;;
            User.new (SignupRequest.username payload) (SignupRequest.email payload)
              (SignupRequest.phone payload) password_hash (SignupRequest.name payload)
          with
          | Ok user_doc =>
              let (user_id, d') := insert_user user_doc d in
              (Ok (<["id" := VStr (py_str (VObjectId user_id))]>
                  (<["username" := VStr (SignupRequest.username payload)]> ∅)),
               Some d')
          | HTTPException c m => (HTTPException c m, db)
          | Uncaught e => (Uncaught e, db)
          end
  end.

Definition login_query (payload : LoginRequest.t) : query :=
  match LoginRequest.username payload with
  | Some u => if str_truthy u then [FieldEq "username" (OStr u)] else []
  | None => []
  end ++
  match LoginRequest.phone payload with
  | Some p => if str_truthy p then [FieldEq "phone" (OStr p)] else []
  | None => []
  end.

(** [user.get(key)] and [user.get("password_hash", "")]. *)
Definition dict_get (d : document) (k : string) : value :=
  match d !! k with Some v => v | None => VNone end.

Definition stored_hash (d : document) : string :=
  match d !! "password_hash" with Some (VStr h) => h | _ => "" end.

Definition login (payload : LoginRequest.t) (db : option Database) : result document :=
  match db with
  | None => HTTPException 500 "Database not configured"
  | Some d =>
      if negb (str_truthy (LoginRequest.password payload))
      then HTTPException 400 "Password required"
      else
        let query := login_query payload in
        match query with
        | [] => HTTPException 400 "Provide username or phone"
        | _ :: _ =>
            match find_one query (user_docs d) with
            | Some user =>
                if negb (doc_truthy (Some user))
                then HTTPException 401 "Invalid credentials"
                else
                  verified <- passlib_verify (LoginRequest.password payload)
                                (stored_hash user) ;;
                  if negb verified
                  then HTTPException 401 "Invalid credentials"
                  else
                    match user !! "_id" with
                    | Some i =>
                        Ok (<["id" := VStr (py_str i)]>
                           (<["username" := dict_get user "username"]>
                           (<["name" := dict_get user "name"]> ∅)))
                    | None => Uncaught KeyError
                    end
            | None => HTTPException 401 "Invalid credentials"
            end
        end
  end.

(** *** Catalog endpoints *)

(** [list(db["category"].find()) if db else []] takes the truth value of
    the handle. *)
Definition list_categories (db : option Database) : result (list (option document)) :=
  cats <- match db with
          | Some d =>
              truthy <- Database_bool d ;;
              Ok (if truthy then find [] (category_docs d) else [])
          | None => Ok []
          end ;;
  Ok (map (fun c => to_str_id (Some c)) cats).

Definition create_category (payload : CreateCategory.t) (db : option Database)
  : result document * option Database :=
  match db with
  | None => (HTTPException 500 "Database not configured", db)
  | Some d =>
      if doc_truthy (find_one [FieldEq "slug" (OStr (CreateCategory.slug payload))]
                       (category_docs d))
      then (HTTPException 409 "Category exists", db)
      else
        let (_id, d') :=
          insert_category
            (Category.mk (CreateCategory.name payload) (CreateCategory.slug payload)) d in
        (Ok (<["id" := VStr (py_str (VObjectId _id))]> ∅), Some d')
  end.

Definition products_filter (q category : option string) : query :=
  match q with
  | Some s =>
      if str_truthy s
      then [QOr [ [FieldRegex "title" s "i"]; [FieldRegex "description" s "i"] ]]
      else []
  | None => []
  end ++
  match category with
  | Some c => if str_truthy c then [FieldEq "category" (OStr c)] else []
  | None => []
  end.

(** [skip] raises at once on a negative number; the command is sent when
    the cursor is iterated, where an int that BSON cannot hold raises
    before the server sees the query, and the server refuses a pattern
    that its regex engine rejects. *)
Definition list_products (q category : option string) (limit skip : Z)
    (db : option Database) : result (list (option document)) :=
  match db with
  | None => Ok []
  | Some d =>
      let filt := products_filter q category in
      cursor <- cursor_skip skip (find filt (product_docs d)) ;;
      if negb (find_command_ok skip limit) then Uncaught OverflowError
      else if negb (forallb clause_valid filt) then Uncaught OperationFailure
      else Ok (map (fun p => to_str_id (Some p)) (cursor_limit limit cursor))
  end.

(** [db["product"].find_one({"_id": oid}) if db else None] takes the truth
    value of the handle before it queries. *)
Definition get_product (product_id : string) (db : option Database)
  : result (option document) :=
  match ObjectId_of_str product_id with
  | None => HTTPException 400 "Invalid id"
  | Some oid =>
      prod <- match db with
              | Some d =>
                  truthy <- Database_bool d ;;
                  Ok (if truthy
                      then find_one [FieldEq "_id" (OId oid)] (product_docs d)
                      else None)
              | None => Ok None
              end ;;
      if negb (doc_truthy prod)
      then HTTPException 404 "Not found"
      else Ok (to_str_id prod)
  end.

(** [Product] built from the keywords of a dictionary [p] with the five
    keys of [CreateProduct]. *)
Definition Product_of (p : CreateProduct.t) : result Product.t :=
  Product.new (CreateProduct.title p) (CreateProduct.description p)
    (CreateProduct.price p) (CreateProduct.category p) (CreateProduct.image p).

Definition create_product (payload : CreateProduct.t) (db : option Database)
  : result document * option Database :=
  match db with
  | None => (HTTPException 500 "Database not configured", db)
  | Some d =>
      match Product_of payload with
      | Ok prod =>
          let (_id, d') := insert_product prod d in
          (Ok (<["id" := VStr (py_str (VObjectId _id))]> ∅), Some d')
      | HTTPException c m => (HTTPException c m, db)
      | Uncaught e => (Uncaught e, db)
      end
  end.

(** *** Orders *)

(** The items of the generator [item.price * item.quantity for item in
    payload.items], in order; the first product that cannot be formed
    raises. *)
Fixpoint line_totals (items : list OrderItem.t) : result (list float) :=
  match items with
  | [] => Ok []
  | item :: rest =>
      x <- float_mul_int (OrderItem.price item) (OrderItem.quantity item) ;;
      xs <- line_totals rest ;;
      Ok (x :: xs)
  end.

Definition checkout (payload : CheckoutRequest.t) (db : option Database)
  : result document * option Database :=
  match db with
  | None => (HTTPException 500 "Database not configured", db)
  | Some d =>
      match line_totals (CheckoutRequest.items payload) with
      | Ok xs =>
          let total := py_sum xs in
          let order_doc :=
            Order.new (CheckoutRequest.user_id payload) (CheckoutRequest.items payload)
              total (CheckoutRequest.address payload) in
          match insert_order order_doc d with
          | Ok (_id, d') =>
              (Ok (<["order_id" := VStr (py_str (VObjectId _id))]>
                  (<["total" := total]>
                  (<["status" := VStr "placed"]> ∅))),
               Some d')
          | HTTPException c m => (HTTPException c m, db)
          | Uncaught e => (Uncaught e, db)
          end
      | HTTPException c m => (HTTPException c m, db)
      | Uncaught e => (Uncaught e, db)
      end
  end.

(** *** Seed data *)

Definition base_categories : list Category.t :=
  [ Category.mk "Electronics" "electronics";
    Category.mk "Books" "books";
    Category.mk "Home" "home";
    Category.mk "Fashion" "fashion" ].

#[warnings="-inexact-float"]
Definition sample_products : list CreateProduct.t :=
  [ CreateProduct.mk "Noise-Canceling Headphones"
      (Some "Over-ear, Bluetooth 5.3, 30h battery") 129.99%float "Electronics"
      (Some "https://images.unsplash.com/photo-1517495306984-937bcd3c5b86");
    CreateProduct.mk "Smartphone Stand"
      (Some "Adjustable aluminum desk stand") 19.99%float "Electronics"
      (Some "https://images.unsplash.com/photo-1510557880182-3d4d3cba35a5");
    CreateProduct.mk "Bestselling Novel"
      (Some "Paperback, 352 pages") 12.49%float "Books"
      (Some "https://images.unsplash.com/photo-1512820790803-83ca734da794");
    CreateProduct.mk "Cozy Throw Blanket"
      (Some "Ultra-soft microfiber, 50x60") 24.95%float "Home"
      (Some "https://images.unsplash.com/photo-1499933374294-4584851497cc");
    CreateProduct.mk "Classic T-Shirt"
      (Some "100% cotton, unisex fit") 14.99%float "Fashion"
      (Some "https://images.unsplash.com/photo-1512436991641-6745cdb1723f") ].

(** One turn of the first loop: insert the category unless its slug is
    found. *)
Definition seed_category (d : Database) (c : Category.t) : Database :=
  if doc_truthy (find_one [FieldEq "slug" (OStr (Category.slug c))] (category_docs d))
  then d
  else snd (insert_category c d).

(** The second loop; a product that the model rejects ends it with what
    was inserted so far. *)
Fixpoint seed_products (ps : list CreateProduct.t) (d : Database)
  : result unit * Database :=
  match ps with
  | [] => (Ok tt, d)
  | p :: rest =>
      if doc_truthy (find_one [FieldEq "title" (OStr (CreateProduct.title p))]
                       (product_docs d))
      then seed_products rest d
      else
        match Product_of p with
        | Ok prod => seed_products rest (snd (insert_product prod d))
        | HTTPException c m => (HTTPException c m, d)
        | Uncaught e => (Uncaught e, d)
        end
  end.

Definition seed_user (salt : string) (d : Database) : result unit * Database :=
  if doc_truthy (find_one [FieldEq "username" (OStr "demo")] (user_docs d))
  then (Ok tt, d)
  else
    match
      password_hash <- passlib_hash salt "demo123" ;;
      User.new "demo" (Some "demo@example.com") None password_hash (Some "Demo User")
    with
    | Ok u => (Ok tt, snd (insert_user u d))
    | HTTPException c m => (HTTPException c m, d)
    | Uncaught e => (Uncaught e, d)
    end.

Definition seed (salt : string) (db : option Database)
  : result document * option Database :=
  match db with
  | None => (HTTPException 500 "Database not configured", db)
  | Some d =>
      let d1 := fold_left seed_category base_categories d in
      match seed_products sample_products d1 with
      | (Ok _, d2) =>
          match seed_user salt d2 with
          | (Ok _, d3) => (Ok (<["status" := VStr "seeded"]> ∅), Some d3)
          | (HTTPException c m, d3) => (HTTPException c m, Some d3)
          | (Uncaught e, d3) => (Uncaught e, Some d3)
          end
      | (HTTPException c m, d2) => (HTTPException c m, Some d2)
      | (Uncaught e, d2) => (Uncaught e, Some d2)
      end
  end.

End Handlers.

(** ** Sample collaborators and stores *)

(** A stand-in hasher, used where a statement is evaluated on concrete
    data: the hash is the salt, a dollar sign and the secret. *)
Definition sample_hash (salt secret : string) : string := salt ++ "$" ++ secret.

Fixpoint after_dollar (h : string) : string :=
  match h with
  | EmptyString => EmptyString
  | String c h' => if Ascii.eqb c "$" then h' else after_dollar h'
  end.

(** A hash has a dollar sign in it; any other string is not one. *)
Definition sample_verify (secret hash : string) : option bool :=
  if str_mem "$" hash then Some (String.eqb (after_dollar hash) secret) else None.

(** The stand-in engine rejects every pattern it is asked about, and the
    stand-in server puts at most 101 documents in a batch. *)
Definition sample_collaborators : Collaborators :=
  {| bcrypt_hash := sample_hash;
     bcrypt_verify := sample_verify;
     float_repr := fun _ => "<float>";
     pcre_compile := fun _ _ => None;
     single_batch := fun docs => Nat.min 101 (length docs) |}.

Definition empty_db : Database := mkDatabase [] [] [] [] 0.

Definition db_alice : Database :=
  mkDatabase [(0%N, User.mk "alice" None None "s$secret" None true false)] [] [] [] 1.

Definition lamp : Product.t :=
  Product.mk "Lamp" (Some "Desk light") 10%float "Home" None (Some 4.5%float) (Some 0) true.

Definition novel : Product.t :=
  Product.mk "Bestselling Novel" None 5%float "Books" None (Some 4.5%float) (Some 0) true.

Definition db_lamp : Database := mkDatabase [] [] [(0%N, lamp)] [] 1.

Definition db_novels : Database := mkDatabase [] [] [(0%N, novel); (1%N, novel)] [] 2.

(** ** Notions used in the statements *)




(** A well-formed identifier, as [bson.ObjectId] documents it and as
    [bytes.fromhex] reads it: 24 characters that are pairs of hexadecimal
    digits, with ASCII whitespace allowed around the pairs. *)
Definition hex_digits : string := "0123456789abcdefABCDEF".

Definition blanks : string :=
  String "009" (String "010" (String "011" (String "012" (String "013" " ")))).

Inductive hex_pairs : string -> Prop :=
| pairs_end : hex_pairs ""
| pairs_blank c s :
    str_mem c blanks = true -> hex_pairs s -> hex_pairs (String c s)
| pairs_byte a b s :
    str_mem a hex_digits = true -> str_mem b hex_digits = true ->
    hex_pairs s -> hex_pairs (String a (String b s)).

Definition well_formed_id (s : string) : Prop :=
  py_len s = 24%nat /\ hex_pairs s.

(** An order item whose price and quantity are both non-negative. *)
Definition item_nonneg (item : OrderItem.t) : bool :=
  PrimFloat.leb 0 (OrderItem.price item) && (0 <=? OrderItem.quantity item)%Z.

(** The amount of one line: price times quantity. *)
Definition line_value (item : OrderItem.t) : float :=
  PrimFloat.mul (OrderItem.price item) (float_of_Z (OrderItem.quantity item)).

Definition order_10x2_5x1 : CheckoutRequest.t :=
  CheckoutRequest.mk "u1"
    [ OrderItem.mk "p1" "first" 10%float 2 None;
      OrderItem.mk "p2" "second" 5%float 1 None ] "1 Main Street".

(** A stored user has the given phone (or email), when one is supplied:
    an absent or empty value counts as not supplied. *)
Definition supplied_eq (given stored : option string) : bool :=
  match given with
  | Some s =>
      str_truthy s &&
      match stored with Some s' => String.eqb s s' | None => false end
  | None => false
  end.

(** The conflict a signup is meant to detect: the stored user has the
    requested username, or the supplied phone, or the supplied email. *)
Definition conflicts_with (payload : SignupRequest.t) (u : User.t) : bool :=
  String.eqb (SignupRequest.username payload) (User.username u)
  || supplied_eq (SignupRequest.phone payload) (User.phone u)
  || supplied_eq (SignupRequest.email payload) (User.email u).

(** A stored user matches every identifier that a login supplies. *)
Definition identified_by (payload : LoginRequest.t) (u : User.t) : bool :=
  match LoginRequest.username payload with
  | Some s => if str_truthy s then String.eqb s (User.username u) else true
  | None => true
  end
  &&
  match LoginRequest.phone payload with
  | Some p =>
      if str_truthy p
      then match User.phone u with Some p' => String.eqb p p' | None => false end
      else true
  | None => true
  end.

(** The non-empty phone of a user, if it has one. *)
Definition phone_key (x : ObjectId * User.t) : list string :=
  match User.phone (snd x) with
  | Some p => if str_truthy p then [p] else []
  | None => []
  end.

(** The uniqueness the data model asks of stored users: no two share a
    username, and no two share a non-empty phone. *)
Definition users_unique (d : Database) : Prop :=
  NoDup (map (fun x => User.username (snd x)) (db_user d)) /\
  NoDup (flat_map phone_key (db_user d)).

Definition signup_bob : SignupRequest.t :=
  SignupRequest.mk "bob" "hunter2" None None None.

Definition signup_ab : SignupRequest.t :=
  SignupRequest.mk "ab" "hunter2" None None None.

Definition login_alice : LoginRequest.t :=
  LoginRequest.mk (Some "alice") None "secret".

(** A login as alice whose password has a NUL in it. *)
Definition login_alice_nul : LoginRequest.t :=
  LoginRequest.mk (Some "alice") None (String "s" (String "000" "ecret")).

(** Two stored users named bob, with the hashes of two passwords, and a
    login with the password of the second. *)
Definition db_two_bobs : Database :=
  mkDatabase
    [ (0%N, User.mk "bob" None None "s$first" None true false);
      (1%N, User.mk "bob" None None "s$second" None true false) ] [] [] [] 2.

Definition login_bob : LoginRequest.t :=
  LoginRequest.mk (Some "bob") None "second".

(** [q] occurs in [t] as a substring when case is ignored. *)
Definition ci_contains (q t : string) : Prop :=
  exists pre post : string, lower_str t = pre ++ lower_str q ++ post.

Fixpoint prefix_b (p t : string) : bool :=
  match p, t with
  | EmptyString, _ => true
  | String a p', String b t' => Ascii.eqb a b && prefix_b p' t'
  | String _ _, EmptyString => false
  end.

Fixpoint is_substring (p t : string) : bool :=
  prefix_b p t
  || match t with
     | EmptyString => false
     | String _ t' => is_substring p t'
     end.

(** A pattern without any metacharacter, and the atoms it parses to. *)
Fixpoint plain (q : string) : bool :=
  match q with
  | EmptyString => true
  | String c q' => negb (str_mem c metachars) && plain q'
  end.

Fixpoint lits (q : string) : list atom :=
  match q with
  | EmptyString => []
  | String c q' => Lit c :: lits q'
  end.

(** A stored product passes the filters of a product listing: a
    non-empty [q] occurs, case ignored, in its title or description, and
    a non-empty [category] is its category. *)
Definition satisfies (q category : option string) (p : Product.t) : bool :=
  match q with
  | Some s =>
      if str_truthy s
      then is_substring (lower_str s) (lower_str (Product.title p))
           || match Product.description p with
              | Some ds => is_substring (lower_str s) (lower_str ds)
              | None => false
              end
      else true
  | None => true
  end
  &&
  match category with
  | Some c => if str_truthy c then String.eqb c (Product.category p) else true
  | None => true
  end.

Definition product_doc (x : ObjectId * Product.t) : document :=
  with_id (fst x) (Product.model_dump (snd x)).

(** What a returned document says of the two filters. *)
Definition text_contains (q : string) (r : option document) : Prop :=
  exists (r' : document) (s : string),
    r = Some r' /\
    (r' !! "title" = Some (VStr s) \/ r' !! "description" = Some (VStr s)) /\
    ci_contains q s.

Definition category_is (c : string) (r : option document) : Prop :=
  exists r' : document, r = Some r' /\ r' !! "category" = Some (VStr c).

(** How many records of a collection carry the key [k], and whether any
    does. *)
Definition count_by {A : Type} (key : A -> string) (k : string)
    (l : list (ObjectId * A)) : nat :=
  length (List.filter (fun x => String.eqb k (key (snd x))) l).

Definition present_by {A : Type} (key : A -> string) (k : string)
    (l : list (ObjectId * A)) : bool :=
  existsb (fun x => String.eqb k (key (snd x))) l.

(** Insert-if-absent over a list of new records, on one collection [l]
    with the identifier supply at [n]: the list-level reading of the
    loops of [seed]. *)
Fixpoint ensure_all {A : Type} (key : A -> string) (news : list A)
    (l : list (ObjectId * A)) (n : N) : list (ObjectId * A) * N :=
  match news with
  | [] => (l, n)
  | a :: rest =>
      if present_by key (key a) l
      then ensure_all key rest l n
      else ensure_all key rest (l ++ [((n mod 2 ^ 96)%N, a)]) (n + 1)%N
  end.

(** The products that [seed] inserts: the samples with the defaults of
    the [Product] model. *)
Definition sample_models : list Product.t :=
  map (fun p => Product.mk (CreateProduct.title p) (CreateProduct.description p)
                  (CreateProduct.price p) (CreateProduct.category p)
                  (CreateProduct.image p) (Some 4.5%float) (Some 0%Z) true)
    sample_products.

Definition novel_request : CreateProduct.t :=
  CreateProduct.mk "Bestselling Novel" None 5%float "Books" None.

Definition order_negative : CheckoutRequest.t :=
  CheckoutRequest.mk "u1" [ OrderItem.mk "p1" "refund" (-5)%float (-1) None ] "1 Main Street".

Definition order_overflow : CheckoutRequest.t :=
  CheckoutRequest.mk "u1" [ OrderItem.mk "p1" "bulk" 1%float (2 ^ 1024) None ] "1 Main Street".

Definition signup_alice : SignupRequest.t :=
  SignupRequest.mk "alice" "secret" None None (Some "Alice").

Definition alice : User.t := User.mk "alice" None None "s$secret" None true false.

Definition db_books : Database :=
  mkDatabase [] [(7%N, Category.mk "Books" "books")] [] [] 8.

(** The store after a run of [seed] that would insert [demo] as the
    demo user: the three collections with their missing records added,
    one after the other, from one supply of identifiers. *)
Definition seeded (demo : User.t) (d : Database) : Database :=
  let cats := ensure_all Category.slug base_categories (db_category d) (next_oid d) in
  let prods := ensure_all Product.title sample_models (db_product d) (snd cats) in
  let users := ensure_all User.username [demo] (db_user d) (snd prods) in
  mkDatabase (fst users) (fst cats) (fst prods) (db_order d) (snd users).

(** The stores that a sequence of requests reaches from the empty store. *)
Section Reachability.
Context `{Collaborators}.

Inductive reachable : Database -> Prop :=
| reach_empty : reachable empty_db
| reach_signup d salt payload r d' :
    reachable d -> signup salt payload (Some d) = (r, Some d') -> reachable d'
| reach_create_category d payload r d' :
    reachable d -> create_category payload (Some d) = (r, Some d') -> reachable d'
| reach_create_product d payload r d' :
    reachable d -> create_product payload (Some d) = (r, Some d') -> reachable d'
| reach_checkout d payload r d' :
    reachable d -> checkout payload (Some d) = (r, Some d') -> reachable d'
| reach_seed d salt r d' :
    reachable d -> seed salt (Some d) = (r, Some d') -> reachable d'.

End Reachability.

(** No two stored categories share a slug. *)
Definition slugs_unique (d : Database) : Prop :=
  NoDup (map (fun x => Category.slug (snd x)) (db_category d)).

Definition lamp_request : CreateProduct.t :=
  CreateProduct.mk "Lamp" (Some "Desk light") 10%float "Home" None.

Definition db_two_lamps : Database :=
  mkDatabase [] [] [(0%N, lamp); (1%N, lamp); (2%N, novel)] [] 3.

Definition db_after_alice : Database :=
  mkDatabase [(0%N, User.mk "alice" None None "s$secret" (Some "Alice") true false)]
    [] [] [] 1.


(** * Properties *)

Section Projection.
Context `{Collaborators}.

(** ** Identifier projection *)

Lemma to_str_id_pops (stored : document) (v : value) :
  stored !! "_id" = Some v ->
  to_str_id (Some stored) = Some (<["id" := VStr (py_str v)]> (delete "_id" stored)).
Proof. intros Hid. unfold to_str_id. now rewrite Hid. Qed.





Lemma In_firstn_incl {A : Type} (n : nat) (l : list A) (x : A) :
  In x (firstn n l) -> In x l.
Proof.
  intros Hx. rewrite <- (firstn_skipn n l). apply in_or_app. now left.
Qed.

Lemma In_skipn_incl {A : Type} (n : nat) (l : list A) (x : A) :
  In x (skipn n l) -> In x l.
Proof.
  intros Hx. rewrite <- (firstn_skipn n l). apply in_or_app. now right.
Qed.





Lemma doc_truthy_with_id (o : ObjectId) (body : document) :
  doc_truthy (Some (with_id o body)) = true.
Proof.
  unfold doc_truthy, with_id.
  destruct (size (<["_id" := VObjectId o]> body)) eqn:Hsz; [|reflexivity].
  apply map_size_empty_iff in Hsz.
  apply (f_equal (fun m : document => m !! "_id")) in Hsz.
  rewrite lookup_insert_eq, lookup_empty in Hsz. discriminate.
Qed.



Lemma get_product_cases (product_id : string) (db : option Database) :
  get_product product_id db =
  match ObjectId_of_str product_id, db with
  | None, _ => HTTPException 400 "Invalid id"
  | Some _, None => HTTPException 404 "Not found"
  | Some _, Some _ => Uncaught NotImplementedError
  end.
Proof.
  unfold get_product. destruct (ObjectId_of_str product_id); now destruct db.
Qed.


End Projection.

Section UnconfiguredReads.
Context `{Collaborators}.

(** ** Unconfigured database *)

(** C10: with [db] not configured the two read endpoints [GET /categories]
    and [GET /products] answer an empty array, where every endpoint that
    writes ([signup], [create_category], [create_product], [checkout],
    [seed]) raises the 500 error. *)
Theorem unconfigured_reads_are_empty :
  list_categories None = Ok [] /\
  (forall q category limit skip,
      list_products q category limit skip None = Ok []) /\
  (forall salt payload,
      signup salt payload None = (HTTPException 500 "Database not configured", None)) /\
  (forall payload,
      create_category payload None = (HTTPException 500 "Database not configured", None)) /\
  (forall payload,
      create_product payload None = (HTTPException 500 "Database not configured", None)) /\
  (forall payload,
      checkout payload None = (HTTPException 500 "Database not configured", None)) /\
  (forall salt,
      seed salt None = (HTTPException 500 "Database not configured", None)).
Proof. repeat split. Qed.

End UnconfiguredReads.

Section ProductLookup.
Context `{Collaborators}.

(** ** Product lookup *)

Lemma is_space_blanks (c : ascii) : is_space c = str_mem c blanks.
Proof. destruct c as [[] [] [] [] [] [] [] []]; reflexivity. Qed.

Lemma hex_value_digits (c : ascii) :
  str_mem c hex_digits = match hex_value c with Some _ => true | None => false end.
Proof. destruct c as [[] [] [] [] [] [] [] []]; reflexivity. Qed.

Lemma hex_digit_not_blank (c : ascii) :
  str_mem c hex_digits = true -> is_space c = false.
Proof. destruct c as [[] [] [] [] [] [] [] []]; (reflexivity || discriminate). Qed.

Lemma hex_pairs_fromhex (s : string) :
  hex_pairs s -> exists bytes, fromhex s = Some bytes.
Proof.
  induction 1 as [|c s Hc _ [bytes IH]|a b s Ha Hb _ [bytes IH]].
  - now exists [].
  - exists bytes. cbn [fromhex]. now rewrite is_space_blanks, Hc.
  - cbn [fromhex]. rewrite (hex_digit_not_blank _ Ha).
    rewrite hex_value_digits in Ha, Hb.
    destruct (hex_value a) as [top|]; [|discriminate].
    destruct (hex_value b) as [bot|]; [|discriminate].
    rewrite IH. eauto.
Qed.

Lemma fromhex_hex_pairs (n : nat) (s : string) (bytes : list N) :
  (String.length s <= n)%nat -> fromhex s = Some bytes -> hex_pairs s.
Proof.
  revert s bytes. induction n as [|n IH]; intros s bytes Hlen.
  - destruct s; [constructor|simpl in Hlen; lia].
  - destruct s as [|c s]; [constructor|]. cbn [fromhex]. simpl in Hlen.
    destruct (is_space c) eqn:Hc.
    + intros Hs. apply pairs_blank; [now rewrite <- is_space_blanks|].
      apply (IH s bytes); [lia|assumption].
    + destruct (hex_value c) as [top|] eqn:Htop; [|discriminate].
      destruct s as [|c' s]; [discriminate|].
      destruct (hex_value c') as [bot|] eqn:Hbot; [|discriminate].
      destruct (fromhex s) as [rest|] eqn:Hrest; [|discriminate].
      intros _. simpl in Hlen. apply pairs_byte.
      * now rewrite hex_value_digits, Htop.
      * now rewrite hex_value_digits, Hbot.
      * apply (IH s rest); [lia|assumption].
Qed.

(** [ObjectId(s)] accepts exactly the well-formed identifiers. *)
Lemma ObjectId_of_str_well_formed (s : string) :
  (exists bytes, ObjectId_of_str s = Some bytes) <-> well_formed_id s.
Proof.
  unfold ObjectId_of_str, well_formed_id. split.
  - intros [bytes Hs]. destruct (Nat.eqb_spec (py_len s) 24); [|discriminate].
    split; [assumption|]. now apply (fromhex_hex_pairs (String.length s) s bytes).
  - intros [Hlen Hpairs]. rewrite Hlen. cbn [Nat.eqb].
    now apply hex_pairs_fromhex.
Qed.

(** C6: [get_product] answers 400 for every string that is not a
    well-formed identifier, and 404 for a well-formed one when the
    database is not configured.  On a configured database it has no
    third outcome to offer: for every well-formed identifier, that of a
    stored product as much as any other, the test [if db] raises
    [NotImplementedError] before the store is queried, so the call ends
    in an uncaught exception where the claim expects the product or a
    404. *)
Theorem get_product_outcomes (product_id : string) (db : option Database) :
  (~ well_formed_id product_id ->
   get_product product_id db = HTTPException 400 "Invalid id") /\
  (well_formed_id product_id -> db = None ->
   get_product product_id db = HTTPException 404 "Not found") /\
  (well_formed_id product_id -> forall d, db = Some d ->
   get_product product_id db = Uncaught NotImplementedError).
Proof.
  rewrite get_product_cases.
  destruct (ObjectId_of_str product_id) as [bytes|] eqn:Hparse.
  - assert (Hwf : well_formed_id product_id)
      by (apply ObjectId_of_str_well_formed; eauto).
    repeat split.
    + intros Hmal. now destruct Hmal.
    + now intros _ ->.
    + now intros _ d ->.
  - assert (Hmal : ~ well_formed_id product_id).
    { intros [bytes Hwf]%ObjectId_of_str_well_formed. congruence. }
    repeat split.
    + intros Hwf. now destruct Hmal.
    + intros Hwf. now destruct Hmal.
Qed.

End ProductLookup.

Section Checkout.
Context `{Collaborators}.

(** ** Checkout *)

Lemma int64_converts (n : Z) :
  int64 n = true -> float_of_int n = Ok (float_of_Z n).
Proof.
  unfold int64, float_of_int. intros [Hlo Hhi]%andb_prop.
  apply Z.leb_le in Hlo. apply Z.ltb_lt in Hhi.
  assert (Hbig : (2 ^ 63 < 2 ^ 1024 - 2 ^ 970)%Z) by (vm_compute; reflexivity).
  assert (Hlt : (Z.abs n < 2 ^ 1024 - 2 ^ 970)%Z).
  { apply Z.le_lt_trans with (2 ^ 63)%Z; [|exact Hbig].
    apply Z.abs_le. split; [exact Hlo|]. now apply Z.lt_le_incl. }
  apply Z.ltb_lt in Hlt. now rewrite Hlt.
Qed.

Lemma line_totals_int64 (items : list OrderItem.t) :
  forallb (fun item => int64 (OrderItem.quantity item)) items = true ->
  line_totals items = Ok (map line_value items).
Proof.
  induction items as [|item rest IH]; simpl; [reflexivity|].
  intros [Hq Hrest]%andb_prop.
  unfold float_mul_int. rewrite (int64_converts _ Hq). simpl.
  now rewrite (IH Hrest).
Qed.

Lemma checkout_ok (payload : CheckoutRequest.t) (d : Database) :
  forallb (fun item => int64 (OrderItem.quantity item))
    (CheckoutRequest.items payload) = true ->
  let total := py_sum (map line_value (CheckoutRequest.items payload)) in
  checkout payload (Some d) =
  (Ok (<["order_id" := VStr (str_ObjectId (fresh_oid d))]>
      (<["total" := total]>
      (<["status" := VStr "placed"]> ∅))),
   Some (mkDatabase (db_user d) (db_category d) (db_product d)
           (db_order d ++
            [(fresh_oid d,
              Order.mk (CheckoutRequest.user_id payload)
                (CheckoutRequest.items payload) (as_float total)
                (CheckoutRequest.address payload) "placed")])
           (next_oid d + 1))).
Proof.
  intros Hq total. unfold checkout.
  rewrite (line_totals_int64 _ Hq). fold total.
  unfold insert_order, Order.new. cbn [Order.items]. now rewrite Hq.
Qed.

(** C2, amended: for every checkout request whose quantities fit the
    eight-byte ints of the store, and with the database configured, the
    response is [{order_id, total, status}] with status ["placed"] and
    with total the sum, over the submitted items in order, of the
    client-supplied price times the quantity; the order is persisted
    last in its collection with that same total and status ["placed"]. *)
Theorem checkout_total_and_status (payload : CheckoutRequest.t) (d : Database) :
  Forall (fun item => int64 (OrderItem.quantity item) = true)
    (CheckoutRequest.items payload) ->
  let total := py_sum (map line_value (CheckoutRequest.items payload)) in
  checkout payload (Some d) =
  (Ok (<["order_id" := VStr (str_ObjectId (fresh_oid d))]>
      (<["total" := total]>
      (<["status" := VStr "placed"]> ∅))),
   Some (mkDatabase (db_user d) (db_category d) (db_product d)
           (db_order d ++
            [(fresh_oid d,
              Order.mk (CheckoutRequest.user_id payload)
                (CheckoutRequest.items payload) (as_float total)
                (CheckoutRequest.address payload) "placed")])
           (next_oid d + 1))).
Proof.
  intros Hq. apply checkout_ok. apply forallb_forall. intros item Hitem.
  rewrite Stdlib.Lists.List.Forall_forall in Hq. now apply Hq.
Qed.

(** C4, amended: checkout checks neither price nor quantity.  For every
    request it accepts, the order it persists carries the submitted
    items unchanged, so the persisted items are all non-negative exactly
    when the submitted ones are. *)
Theorem checkout_persists_items_as_submitted
    (payload : CheckoutRequest.t) (d : Database) :
  Forall (fun item => int64 (OrderItem.quantity item) = true)
    (CheckoutRequest.items payload) ->
  exists resp d' oid order,
    checkout payload (Some d) = (Ok resp, Some d') /\
    db_order d' = (db_order d ++ [(oid, order)])%list /\
    Order.items order = CheckoutRequest.items payload /\
    (forallb item_nonneg (Order.items order) = true <->
     forallb item_nonneg (CheckoutRequest.items payload) = true).
Proof.
  intros Hq.
  assert (Hq' : forallb (fun item => int64 (OrderItem.quantity item))
                  (CheckoutRequest.items payload) = true).
  { apply forallb_forall. intros item Hitem.
    rewrite Stdlib.Lists.List.Forall_forall in Hq. now apply Hq. }
  do 4 eexists. split; [apply (checkout_ok payload d Hq')|].
  cbn [db_order Order.items]. repeat split; trivial.
Qed.

End Checkout.

Section Signup.
Context `{Collaborators}.

(** ** Signup *)

Lemma str_truthy_false (s : string) : str_truthy s = false <-> s = "".
Proof.
  unfold str_truthy. rewrite negb_false_iff. apply String.eqb_eq.
Qed.

Lemma str_truthy_true (s : string) : str_truthy s = true <-> s <> "".
Proof.
  unfold str_truthy. rewrite negb_true_iff. apply String.eqb_neq.
Qed.

Lemma existsb_pointwise {A : Type} (f g : A -> bool) (l : list A) :
  (forall a, f a = g a) -> existsb f l = existsb g l.
Proof.
  intros Hfg. induction l as [|a l IH]; simpl; [reflexivity|].
  now rewrite Hfg, IH.
Qed.

Lemma doc_truthy_find_one {A : Type} (f : A -> document) (q : query) (l : list A) :
  (forall a, doc_truthy (Some (f a)) = true) ->
  doc_truthy (find_one q (map f l)) = existsb (fun a => query_matches q (f a)) l.
Proof.
  intros Hf. unfold find_one.
  induction l as [|a l IH]; simpl; [reflexivity|].
  destruct (query_matches q (f a)); simpl; [apply Hf|exact IH].
Qed.

Lemma find_one_map {A : Type} (f : A -> document) (q : query) (l : list A) :
  find_one q (map f l) = option_map f (List.find (fun a => query_matches q (f a)) l).
Proof.
  unfold find_one. induction l as [|a l IH]; simpl; [reflexivity|].
  destruct (query_matches q (f a)); simpl; [reflexivity|exact IH].
Qed.

Lemma opt_clause_matches (field : string) (given stored : option string) (x : document) :
  x !! field = Some (opt_str stored) ->
  forallb (clause_matches x)
    match given with
    | Some s => if str_truthy s then [FieldEq field (OStr s)] else []
    | None => []
    end
  = supplied_eq given stored || negb (opt_truthy given).
Proof.
  intros Hx. destruct given as [s|]; simpl; [|reflexivity].
  destruct (str_truthy s); simpl; [|reflexivity].
  rewrite Hx, andb_true_r, orb_false_r. now destruct stored.
Qed.

Lemma signup_query_matches (payload : SignupRequest.t) (o : ObjectId) (u : User.t) :
  query_matches (signup_query payload) (with_id o (User.model_dump u)) =
  conflicts_with payload u
  || negb (opt_truthy (SignupRequest.phone payload))
  || negb (opt_truthy (SignupRequest.email payload)).
Proof.
  assert (Hname : clause_matches (with_id o (User.model_dump u))
            (FieldEq "username" (OStr (SignupRequest.username payload)))
          = String.eqb (SignupRequest.username payload) (User.username u))
    by reflexivity.
  unfold query_matches, signup_query.
  cbn [forallb existsb]. cbn [clause_matches]. cbn [forallb existsb].
  fold (clause_matches (with_id o (User.model_dump u))
          (FieldEq "username" (OStr (SignupRequest.username payload)))).
  rewrite Hname.
  rewrite (opt_clause_matches "phone" _ (User.phone u)) by reflexivity.
  rewrite (opt_clause_matches "email" _ (User.email u)) by reflexivity.
  unfold conflicts_with.
  destruct (String.eqb _ _), (supplied_eq (SignupRequest.phone payload) _),
    (supplied_eq (SignupRequest.email payload) _),
    (opt_truthy (SignupRequest.phone payload)),
    (opt_truthy (SignupRequest.email payload)); reflexivity.
Qed.

Lemma signup_existing (payload : SignupRequest.t) (d : Database) :
  doc_truthy (find_one (signup_query payload) (user_docs d)) =
  existsb (fun x => conflicts_with payload (snd x)
                    || negb (opt_truthy (SignupRequest.phone payload))
                    || negb (opt_truthy (SignupRequest.email payload)))
    (db_user d).
Proof.
  unfold user_docs. rewrite doc_truthy_find_one.
  - apply existsb_pointwise. intros [o u]. apply signup_query_matches.
  - intros a. apply doc_truthy_with_id.
Qed.


Lemma signup_checked (salt : string) (payload : SignupRequest.t) (d : Database) :
  str_truthy (SignupRequest.username payload) = true ->
  str_truthy (SignupRequest.password payload) = true ->
  signup salt payload (Some d) =
  if existsb (fun x => conflicts_with payload (snd x)
                       || negb (opt_truthy (SignupRequest.phone payload))
                       || negb (opt_truthy (SignupRequest.email payload)))
       (db_user d)
  then (HTTPException 409 "Account already exists", Some d)
  else
    match
      password_hash <- passlib_hash salt (SignupRequest.password payload) ;;
      User.new (SignupRequest.username payload) (SignupRequest.email payload)
        (SignupRequest.phone payload) password_hash (SignupRequest.name payload)
    with
    | Ok user_doc =>
        (Ok (<["id" := VStr (str_ObjectId (fresh_oid d))]>
            (<["username" := VStr (SignupRequest.username payload)]> ∅)),
         Some (snd (insert_user user_doc d)))
    | HTTPException c m => (HTTPException c m, Some d)
    | Uncaught e => (Uncaught e, Some d)
    end.
Proof.
  intros Hu Hp. unfold signup. rewrite Hu, Hp. cbn [negb orb].
  rewrite signup_existing.
  destruct (existsb _ (db_user d)); [reflexivity|].
  now destruct (bind _ _).
Qed.

(** What the model constructor and the hasher can answer. *)
Lemma signup_user_doc (salt : string) (payload : SignupRequest.t) :
  (password_hash <- passlib_hash salt (SignupRequest.password payload) ;;
   User.new (SignupRequest.username payload) (SignupRequest.email payload)
     (SignupRequest.phone payload) password_hash (SignupRequest.name payload)) =
  if negb (secret_accepted (SignupRequest.password payload))
  then Uncaught ValueError
  else if (3 <=? py_len (SignupRequest.username payload))%nat
          && (py_len (SignupRequest.username payload) <=? 32)%nat
  then Ok (User.mk (SignupRequest.username payload) (SignupRequest.email payload)
             (SignupRequest.phone payload)
             (bcrypt_hash salt (SignupRequest.password payload))
             (SignupRequest.name payload) true false)
  else Uncaught ValidationError.
Proof.
  unfold passlib_hash, User.new.
  destruct (secret_accepted _); [|reflexivity]. reflexivity.
Qed.

(** C1, as the code has it: a signup that omits the phone or the email
    (or leaves it empty) is refused with 409 as soon as the user
    collection holds any user at all, whether or not a stored user has
    the requested username, phone or email.  The alternative that stands
    for the omitted field in the [$or] is the empty query, which every
    document matches. *)
Theorem signup_conflicts_when_contact_omitted
    (salt : string) (payload : SignupRequest.t) (d : Database) :
  str_truthy (SignupRequest.username payload) = true ->
  str_truthy (SignupRequest.password payload) = true ->
  opt_truthy (SignupRequest.phone payload) = false \/
  opt_truthy (SignupRequest.email payload) = false ->
  db_user d <> [] ->
  signup salt payload (Some d) =
  (HTTPException 409 "Account already exists", Some d).
Proof.
  intros Hu Hp Homit Hne. rewrite (signup_checked _ _ _ Hu Hp).
  destruct (db_user d) as [|x l]; [contradiction|]. simpl.
  destruct Homit as [-> | ->]; simpl; now rewrite ?orb_true_r.
Qed.

(** With phone and email both supplied the check is the intended one: 409
    exactly when a stored user has the username, the phone or the email. *)
Lemma signup_conflict_both_supplied
    (salt : string) (payload : SignupRequest.t) (d : Database) :
  str_truthy (SignupRequest.username payload) = true ->
  str_truthy (SignupRequest.password payload) = true ->
  opt_truthy (SignupRequest.phone payload) = true ->
  opt_truthy (SignupRequest.email payload) = true ->
  fst (signup salt payload (Some d)) = HTTPException 409 "Account already exists" <->
  exists x, In x (db_user d) /\ conflicts_with payload (snd x) = true.
Proof.
  intros Hu Hp Hphone Hemail. rewrite (signup_checked _ _ _ Hu Hp).
  rewrite Hphone, Hemail. cbn [negb].
  rewrite (existsb_pointwise _ (fun x => conflicts_with payload (snd x)))
    by (intros x; now rewrite !orb_false_r).
  destruct (existsb _ (db_user d)) eqn:Hex.
  - split; [intros _|reflexivity]. now apply existsb_exists in Hex.
  - split.
    + rewrite signup_user_doc. destruct (negb (secret_accepted _)); [discriminate|].
      now destruct (_ && _).
    + intros Hsome. apply existsb_exists in Hsome. congruence.
Qed.

Lemma signup_status_400 (salt : string) (payload : SignupRequest.t) (d : Database) :
  (exists detail, fst (signup salt payload (Some d)) = HTTPException 400 detail) <->
  SignupRequest.username payload = "" \/ SignupRequest.password payload = "".
Proof.
  rewrite <- !str_truthy_false.
  destruct (str_truthy (SignupRequest.username payload)) eqn:Hu;
    destruct (str_truthy (SignupRequest.password payload)) eqn:Hp.
  - rewrite (signup_checked _ _ _ Hu Hp). split.
    + intros [detail Hd]. destruct (existsb _ _); [discriminate|].
      rewrite signup_user_doc in Hd.
      destruct (negb (secret_accepted _)); [discriminate|].
      now destruct (_ && _).
    + intros [|]; discriminate.
  - unfold signup. rewrite Hu, Hp. simpl. split; eauto.
  - unfold signup. rewrite Hu, Hp. simpl. split; eauto.
  - unfold signup. rewrite Hu, Hp. simpl. split; eauto.
Qed.

(** A signup that passes the two checks of the handler ends as the hasher
    and the model constructor decide. *)
Lemma signup_unconflicted (salt : string) (payload : SignupRequest.t) (d : Database) :
  SignupRequest.username payload <> "" ->
  SignupRequest.password payload <> "" ->
  (forall x, In x (db_user d) -> conflicts_with payload (snd x) = false) ->
  (opt_truthy (SignupRequest.phone payload) = true /\
   opt_truthy (SignupRequest.email payload) = true) \/ db_user d = [] ->
  signup salt payload (Some d) =
  if negb (secret_accepted (SignupRequest.password payload))
  then (Uncaught ValueError, Some d)
  else if (3 <=? py_len (SignupRequest.username payload))%nat
          && (py_len (SignupRequest.username payload) <=? 32)%nat
  then
    (Ok (<["id" := VStr (str_ObjectId (fresh_oid d))]>
        (<["username" := VStr (SignupRequest.username payload)]> ∅)),
     Some (mkDatabase
             (db_user d ++
              [(fresh_oid d,
                User.mk (SignupRequest.username payload) (SignupRequest.email payload)
                  (SignupRequest.phone payload)
                  (bcrypt_hash salt (SignupRequest.password payload))
                  (SignupRequest.name payload) true false)])
             (db_category d) (db_product d) (db_order d) (next_oid d + 1)))
  else (Uncaught ValidationError, Some d).
Proof.
  intros Hu%str_truthy_true Hp%str_truthy_true Hfree Hcontact.
  rewrite (signup_checked _ _ _ Hu Hp).
  assert (Hex : existsb (fun x => conflicts_with payload (snd x)
                       || negb (opt_truthy (SignupRequest.phone payload))
                       || negb (opt_truthy (SignupRequest.email payload)))
                  (db_user d) = false).
  { destruct Hcontact as [[-> ->] | ->]; [|reflexivity].
    induction (db_user d) as [|x l IH]; simpl; [reflexivity|].
    rewrite (Hfree x) by now left. simpl. apply IH.
    intros y Hy. apply Hfree. now right. }
  rewrite Hex, signup_user_doc. clear Hex.
  destruct (negb (secret_accepted _)); [reflexivity|]. now destruct (_ && _).
Qed.

(** C7, amended: with the database configured, signup answers 400
    exactly when the username or the password is empty.  Otherwise, when
    no stored user has the requested username, the supplied phone or the
    supplied email, and either phone and email are both supplied or no
    user is stored yet, signup succeeds provided the hasher accepts the
    password (at most 4096 characters, no NUL) and the username has 3 to
    32 characters: it stores, last in the collection, a user with the
    hashed password, [is_active] true and [is_admin] false, and returns
    [{id, username}].  A password that the hasher refuses ends the
    request in an uncaught [ValueError], and after that a username of
    another length in an uncaught [ValidationError]; both leave the
    store as it was. *)
Theorem signup_validation_and_success
    (salt : string) (payload : SignupRequest.t) (d : Database) :
  ((exists detail, fst (signup salt payload (Some d)) = HTTPException 400 detail) <->
   SignupRequest.username payload = "" \/ SignupRequest.password payload = "") /\
  (SignupRequest.username payload <> "" ->
   SignupRequest.password payload <> "" ->
   (forall x, In x (db_user d) -> conflicts_with payload (snd x) = false) ->
   (opt_truthy (SignupRequest.phone payload) = true /\
    opt_truthy (SignupRequest.email payload) = true) \/ db_user d = [] ->
   (secret_accepted (SignupRequest.password payload) = true ->
    (3 <= py_len (SignupRequest.username payload) <= 32)%nat ->
    signup salt payload (Some d) =
    (Ok (<["id" := VStr (str_ObjectId (fresh_oid d))]>
        (<["username" := VStr (SignupRequest.username payload)]> ∅)),
     Some (mkDatabase
             (db_user d ++
              [(fresh_oid d,
                User.mk (SignupRequest.username payload) (SignupRequest.email payload)
                  (SignupRequest.phone payload)
                  (bcrypt_hash salt (SignupRequest.password payload))
                  (SignupRequest.name payload) true false)])
             (db_category d) (db_product d) (db_order d) (next_oid d + 1)))) /\
   (secret_accepted (SignupRequest.password payload) = false ->
    signup salt payload (Some d) = (Uncaught ValueError, Some d)) /\
   (secret_accepted (SignupRequest.password payload) = true ->
    ~ (3 <= py_len (SignupRequest.username payload) <= 32)%nat ->
    signup salt payload (Some d) = (Uncaught ValidationError, Some d))).
Proof.
  split; [apply signup_status_400|].
  intros Hu Hp Hfree Hcontact.
  rewrite (signup_unconflicted salt payload d Hu Hp Hfree Hcontact).
  split; [|split].
  - intros -> [Hlo%Nat.leb_le Hhi%Nat.leb_le]. cbn [negb]. now rewrite Hlo, Hhi.
  - now intros ->.
  - intros -> Hlen. cbn [negb].
    destruct (3 <=? _)%nat eqn:Hlo; [|reflexivity].
    destruct (_ <=? 32)%nat eqn:Hhi; [|reflexivity].
    apply Nat.leb_le in Hlo. apply Nat.leb_le in Hhi. now destruct Hlen.
Qed.

End Signup.

Section Login.
Context `{Collaborators}.

(** ** Login *)

Lemma query_matches_app (q1 q2 : query) (x : document) :
  query_matches (q1 ++ q2) x = query_matches q1 x && query_matches q2 x.
Proof. unfold query_matches. apply forallb_app. Qed.

Lemma login_query_matches (payload : LoginRequest.t) (o : ObjectId) (u : User.t) :
  query_matches (login_query payload) (with_id o (User.model_dump u)) =
  identified_by payload u.
Proof.
  unfold login_query, identified_by. rewrite query_matches_app. f_equal.
  - destruct (LoginRequest.username payload) as [s|]; [|reflexivity].
    destruct (str_truthy s); [|reflexivity].
    unfold query_matches. cbn [forallb]. rewrite andb_true_r. reflexivity.
  - destruct (LoginRequest.phone payload) as [s|]; [|reflexivity].
    destruct (str_truthy s); [|reflexivity].
    unfold query_matches. cbn [forallb]. rewrite andb_true_r.
    assert (Hphone : with_id o (User.model_dump u) !! "phone"
                     = Some (opt_str (User.phone u))) by reflexivity.
    cbn [clause_matches]. rewrite Hphone. now destruct (User.phone u).
Qed.

Lemma login_query_nonempty (payload : LoginRequest.t) :
  opt_truthy (LoginRequest.username payload) = true \/
  opt_truthy (LoginRequest.phone payload) = true ->
  login_query payload <> [].
Proof.
  unfold login_query, opt_truthy. intros [Hs | Hs].
  - destruct (LoginRequest.username payload) as [s|]; [|discriminate].
    rewrite Hs. discriminate.
  - destruct (LoginRequest.phone payload) as [s|]; [|discriminate].
    rewrite Hs. intros [_ [=]]%app_eq_nil.
Qed.

Lemma find_pointwise {A : Type} (f g : A -> bool) (l : list A) :
  (forall a, f a = g a) -> List.find f l = List.find g l.
Proof.
  intros Hfg. induction l as [|a l IH]; simpl; [reflexivity|].
  now rewrite Hfg, IH.
Qed.

Lemma login_checked (payload : LoginRequest.t) (d : Database) :
  str_truthy (LoginRequest.password payload) = true ->
  opt_truthy (LoginRequest.username payload) = true \/
  opt_truthy (LoginRequest.phone payload) = true ->
  login payload (Some d) =
  match List.find (fun x => identified_by payload (snd x)) (db_user d) with
  | Some x =>
      verified <- passlib_verify (LoginRequest.password payload)
                    (User.password_hash (snd x)) ;;
      if verified
      then Ok (<["id" := VStr (str_ObjectId (fst x))]>
              (<["username" := VStr (User.username (snd x))]>
              (<["name" := opt_str (User.name (snd x))]> ∅)))
      else HTTPException 401 "Invalid credentials"
  | None => HTTPException 401 "Invalid credentials"
  end.
Proof.
  intros Hp Hids. unfold login. rewrite Hp. cbn [negb].
  destruct (login_query payload) as [|c q] eqn:Hq.
  { now apply login_query_nonempty in Hids. }
  rewrite <- Hq. clear Hq c q.
  unfold user_docs. rewrite find_one_map.
  rewrite (find_pointwise _ (fun x => identified_by payload (snd x)))
    by (intros [o u]; apply login_query_matches).
  destruct (List.find _ (db_user d)) as [[o u]|]; [|reflexivity].
  cbn [option_map fst snd]. rewrite doc_truthy_with_id. cbn [negb].
  change (stored_hash (with_id o (User.model_dump u))) with (User.password_hash u).
  destruct (passlib_verify _ _) as [[|]| |]; reflexivity.
Qed.

Lemma passlib_verify_true (secret hash : string) :
  passlib_verify secret hash = Ok true <->
  secret_accepted secret = true /\ bcrypt_verify secret hash = Some true.
Proof.
  unfold passlib_verify. destruct (secret_accepted secret).
  - destruct (bcrypt_verify secret hash) as [[|]|]; split;
      (discriminate || tauto || (intros [_ [=]]) || idtac).
  - split; [discriminate|intros [[=] _]].
Qed.


Lemma NoDup_map_eq {A B : Type} (f : A -> B) (l : list A) (x y : A) :
  NoDup (map f l) -> In x l -> In y l -> f x = f y -> x = y.
Proof.
  induction l as [|a l IH]; simpl; [contradiction|].
  intros Hnd Hx Hy Hxy. inversion Hnd as [|b m Hnotin Hnd']; subst.
  destruct Hx as [<- | Hx], Hy as [<- | Hy]; trivial.
  - destruct Hnotin. apply list_elem_of_In. rewrite Hxy. now apply in_map.
  - destruct Hnotin. apply list_elem_of_In. rewrite <- Hxy. now apply in_map.
  - now apply IH.
Qed.

Lemma NoDup_app_disjoint {A : Type} (l1 l2 : list A) (k : A) :
  NoDup (l1 ++ l2) -> In k l1 -> In k l2 -> False.
Proof.
  induction l1 as [|a l1 IH]; simpl; [contradiction|].
  intros Hnd Hk1 Hk2. inversion Hnd as [|b m Hnotin Hnd']; subst.
  destruct Hk1 as [<- | Hk1]; [|now apply IH].
  apply Hnotin, list_elem_of_In, in_or_app. now right.
Qed.

Lemma NoDup_app_right {A : Type} (l1 l2 : list A) :
  NoDup (l1 ++ l2) -> NoDup l2.
Proof.
  induction l1 as [|a l1 IH]; simpl; [trivial|].
  intros Hnd. inversion Hnd; subst. now apply IH.
Qed.

Lemma NoDup_flat_map_eq {A B : Type} (g : A -> list B) (l : list A) (x y : A) (k : B) :
  NoDup (flat_map g l) -> In x l -> In y l -> In k (g x) -> In k (g y) -> x = y.
Proof.
  induction l as [|a l IH]; simpl; [contradiction|].
  intros Hnd Hx Hy Hkx Hky.
  destruct Hx as [<- | Hx], Hy as [<- | Hy]; trivial.
  - destruct (NoDup_app_disjoint _ _ k Hnd Hkx).
    apply in_flat_map. eauto.
  - destruct (NoDup_app_disjoint _ _ k Hnd Hky).
    apply in_flat_map. eauto.
  - apply IH; trivial. eapply NoDup_app_right; eassumption.
Qed.

Lemma identified_unique (payload : LoginRequest.t) (d : Database)
    (x y : ObjectId * User.t) :
  users_unique d ->
  opt_truthy (LoginRequest.username payload) = true \/
  opt_truthy (LoginRequest.phone payload) = true ->
  In x (db_user d) -> In y (db_user d) ->
  identified_by payload (snd x) = true ->
  identified_by payload (snd y) = true ->
  x = y.
Proof.
  intros [Hnames Hphones] Hids Hx Hy [Hx1 Hx2]%andb_prop [Hy1 Hy2]%andb_prop.
  destruct Hids as [Hs | Hs].
  - destruct (LoginRequest.username payload) as [s|]; [|discriminate].
    simpl in Hs. rewrite Hs in Hx1, Hy1.
    apply String.eqb_eq in Hx1, Hy1.
    apply (NoDup_map_eq _ _ _ _ Hnames Hx Hy). congruence.
  - destruct (LoginRequest.phone payload) as [p|]; [|discriminate].
    simpl in Hs. rewrite Hs in Hx2, Hy2.
    apply (NoDup_flat_map_eq _ _ _ _ p Hphones Hx Hy); unfold phone_key.
    + destruct (User.phone (snd x)) as [p'|]; [|discriminate].
      apply String.eqb_eq in Hx2 as <-. rewrite Hs. now left.
    + destruct (User.phone (snd y)) as [p'|]; [|discriminate].
      apply String.eqb_eq in Hy2 as <-. rewrite Hs. now left.
Qed.

(** C3, amended: with the stored users unique in username and in phone,
    as the data model has them and as every store reached through the
    handlers is ([reachable_users_unique] below), a login that supplies a
    password and a username or a phone succeeds exactly when some stored
    user matches every supplied identifier, the hasher accepts the
    password (at most 4096 characters, no NUL) and the password verifies
    against that user's stored hash; it then returns that user's
    [{id, username, name}].  When the hasher accepts the password and can
    read the hash of the matching user, every other case gets the one 401
    "Invalid credentials", whether no user matched or the password was
    wrong.  When a user matches and the hasher refuses the password or
    the stored hash, the request ends in an uncaught [ValueError]. *)
Theorem login_succeeds_iff (payload : LoginRequest.t) (d : Database) :
  users_unique d ->
  str_truthy (LoginRequest.password payload) = true ->
  opt_truthy (LoginRequest.username payload) = true \/
  opt_truthy (LoginRequest.phone payload) = true ->
  let password := LoginRequest.password payload in
  let verifies := fun x : ObjectId * User.t =>
    secret_accepted password = true /\
    bcrypt_verify password (User.password_hash (snd x)) = Some true in
  let refused := fun x : ObjectId * User.t =>
    secret_accepted password = false \/
    bcrypt_verify password (User.password_hash (snd x)) = None in
  ((exists resp, login payload (Some d) = Ok resp) <->
   (exists x, In x (db_user d) /\ identified_by payload (snd x) = true /\ verifies x)) /\
  (forall x, In x (db_user d) -> identified_by payload (snd x) = true -> verifies x ->
     login payload (Some d) =
     Ok (<["id" := VStr (str_ObjectId (fst x))]>
        (<["username" := VStr (User.username (snd x))]>
        (<["name" := opt_str (User.name (snd x))]> ∅)))) /\
  ((forall x, In x (db_user d) -> identified_by payload (snd x) = true ->
      ~ verifies x /\ ~ refused x) ->
     login payload (Some d) = HTTPException 401 "Invalid credentials") /\
  (forall x, In x (db_user d) -> identified_by payload (snd x) = true -> refused x ->
     login payload (Some d) = Uncaught ValueError).
Proof.
  intros Huniq Hp Hids password verifies refused.
  assert (Hfound : forall x, In x (db_user d) -> identified_by payload (snd x) = true ->
            List.find (fun x => identified_by payload (snd x)) (db_user d) = Some x).
  { intros x Hx Hid.
    destruct (List.find _ (db_user d)) as [y|] eqn:Hfind.
    - apply find_some in Hfind as [Hy Hyid]. f_equal.
      eapply identified_unique; eassumption.
    - apply (find_none _ _ Hfind) in Hx. congruence. }
  assert (Hhit : forall x, In x (db_user d) -> identified_by payload (snd x) = true ->
            verifies x ->
            login payload (Some d) =
            Ok (<["id" := VStr (str_ObjectId (fst x))]>
               (<["username" := VStr (User.username (snd x))]>
               (<["name" := opt_str (User.name (snd x))]> ∅)))).
  { intros x Hx Hid Hver%passlib_verify_true.
    rewrite (login_checked _ _ Hp Hids), (Hfound x Hx Hid).
    fold password. now rewrite Hver. }
  split; [split|split; [exact Hhit|split]].
  - intros [resp Hresp]. rewrite (login_checked _ _ Hp Hids) in Hresp.
    destruct (List.find _ (db_user d)) as [y|] eqn:Hfind; [|discriminate].
    apply find_some in Hfind as [Hy Hyid]. exists y.
    split; [assumption|]. split; [assumption|].
    apply passlib_verify_true.
    destruct (passlib_verify _ _) as [[|]| |]; (reflexivity || discriminate).
  - intros (x & Hx & Hid & Hver). eexists. exact (Hhit x Hx Hid Hver).
  - intros Hnone. rewrite (login_checked _ _ Hp Hids).
    destruct (List.find _ (db_user d)) as [y|] eqn:Hfind; [|reflexivity].
    apply find_some in Hfind as [Hy Hyid].
    destruct (Hnone y Hy Hyid) as [Hnver Hnref].
    unfold verifies, refused in Hnver, Hnref. unfold passlib_verify.
    fold password.
    destruct (secret_accepted password); [|tauto].
    destruct (bcrypt_verify password _) as [[|]|]; (reflexivity || tauto).
  - intros x Hx Hid Href.
    rewrite (login_checked _ _ Hp Hids), (Hfound x Hx Hid).
    unfold passlib_verify. fold password.
    destruct Href as [-> | Href]; [reflexivity|].
    rewrite Href. now destruct (secret_accepted password).
Qed.

End Login.

Section Listing.
Context `{Collaborators}.

(** ** Product listing *)

Lemma prefix_b_spec (p t : string) :
  prefix_b p t = true <-> exists post, t = p ++ post.
Proof.
  revert t. induction p as [|a p IH]; intros t; simpl.
  - split; eauto.
  - destruct t as [|b t].
    + split; [discriminate|]. intros [post [=]].
    + rewrite andb_true_iff, Ascii.eqb_eq, IH. split.
      * intros [-> [post ->]]. eauto.
      * intros [post [= -> ->]]. eauto.
Qed.

Lemma is_substring_spec (p t : string) :
  is_substring p t = true <-> exists pre post, t = pre ++ p ++ post.
Proof.
  induction t as [|b t IH]; simpl.
  - rewrite orb_false_r, prefix_b_spec. split.
    + intros [post Hp]. exists "", post. exact Hp.
    + intros (pre & post & Hp). destruct pre; simpl in Hp; [eauto|discriminate].
  - rewrite orb_true_iff, prefix_b_spec, IH. split.
    + intros [[post Hp] | (pre & post & ->)].
      * exists "", post. exact Hp.
      * exists (String b pre), post. reflexivity.
    + intros (pre & post & Hp). destruct pre as [|c pre]; simpl in Hp.
      * left. eauto.
      * right. injection Hp as -> ->. eauto.
Qed.

Lemma ci_contains_spec (q t : string) :
  ci_contains q t <-> is_substring (lower_str q) (lower_str t) = true.
Proof. unfold ci_contains. now rewrite is_substring_spec. Qed.

Lemma plain_not_dot (c : ascii) :
  str_mem c metachars = false -> Ascii.eqb c "." = false.
Proof.
  intros Hc. destruct (Ascii.eqb c ".") eqn:Hdot; [|reflexivity].
  apply Ascii.eqb_eq in Hdot. subst c. discriminate Hc.
Qed.

Lemma regex_parse_plain (q : string) :
  plain q = true -> regex_parse q = Some (lits q).
Proof.
  induction q as [|c q IH]; cbn [plain regex_parse lits]; [reflexivity|].
  intros [Hc%negb_true_iff Hq]%andb_prop.
  unfold parse_atom. rewrite (plain_not_dot _ Hc), Hc. now rewrite (IH Hq).
Qed.

Lemma match_here_lits (q t : string) :
  match_here true (lits q) t = prefix_b (lower_str q) (lower_str t).
Proof.
  revert t. induction q as [|c q IH]; intros t; simpl; [reflexivity|].
  destruct t as [|b t]; simpl; [reflexivity|]. now rewrite IH.
Qed.

Lemma regex_search_lits (q t : string) :
  regex_search true (lits q) t = is_substring (lower_str q) (lower_str t).
Proof.
  induction t as [|b t IH]; simpl.
  - now rewrite match_here_lits.
  - now rewrite match_here_lits, IH.
Qed.


Lemma regex_matches_plain (q : string) (stored : option string) (x : document)
    (field : string) :
  plain q = true ->
  x !! field = Some (opt_str stored) ->
  clause_matches x (FieldRegex field q "i") =
  match stored with
  | Some s => is_substring (lower_str q) (lower_str s)
  | None => false
  end.
Proof.
  intros Hq Hx. cbn [clause_matches]. unfold regex_matches.
  rewrite Hx. destruct stored as [s|]; [|reflexivity].
  cbn [opt_str]. rewrite (regex_parse_plain _ Hq).
  change (str_mem "i" "i") with true. apply regex_search_lits.
Qed.

Lemma products_filter_valid (q category : option string) :
  (forall s, q = Some s -> plain s = true) ->
  forallb clause_valid (products_filter q category) = true.
Proof.
  intros Hq. unfold products_filter. rewrite forallb_app. apply andb_true_intro. split.
  - destruct q as [s|]; [|reflexivity].
    destruct (str_truthy s); [|reflexivity].
    cbn. now rewrite (regex_parse_plain _ (Hq s eq_refl)).
  - destruct category as [c|]; [|reflexivity]. now destruct (str_truthy c).
Qed.

Lemma products_filter_matches (q category : option string) (x : ObjectId * Product.t) :
  (forall s, q = Some s -> plain s = true) ->
  query_matches (products_filter q category) (product_doc x) =
  satisfies q category (snd x).
Proof.
  intros Hq. destruct x as [o p]. unfold products_filter, satisfies, product_doc.
  cbn [fst snd]. rewrite query_matches_app. f_equal.
  - destruct q as [s|]; [|reflexivity].
    destruct (str_truthy s); [|reflexivity].
    unfold query_matches. cbn [forallb]. rewrite andb_true_r.
    cbn [clause_matches existsb forallb].
    fold (clause_matches (with_id o (Product.model_dump p)) (FieldRegex "title" s "i")).
    fold (clause_matches (with_id o (Product.model_dump p))
            (FieldRegex "description" s "i")).
    rewrite (regex_matches_plain s (Some (Product.title p)) _ "title")
      by (auto; reflexivity).
    rewrite (regex_matches_plain s (Product.description p) _ "description")
      by (auto; reflexivity).
    now rewrite !andb_true_r, orb_false_r.
  - destruct category as [c|]; [|reflexivity].
    destruct (str_truthy c); [|reflexivity].
    unfold query_matches. cbn [forallb]. now rewrite andb_true_r.
Qed.

Lemma find_map {A : Type} (f : A -> document) (q : query) (l : list A) :
  find q (map f l) = map f (List.filter (fun a => query_matches q (f a)) l).
Proof.
  unfold find. induction l as [|a l IH]; simpl; [reflexivity|].
  destruct (query_matches q (f a)); simpl; now rewrite IH.
Qed.

Lemma filter_pointwise {A : Type} (f g : A -> bool) (l : list A) :
  (forall a, f a = g a) -> List.filter f l = List.filter g l.
Proof.
  intros Hfg. induction l as [|a l IH]; simpl; [reflexivity|].
  now rewrite Hfg, IH.
Qed.

(** The listing of products when the pattern is plain text: the query
    is the filter [satisfies], and the server has no pattern to refuse. *)
Lemma list_products_plain (q category : option string) (limit skip : Z) (d : Database) :
  (forall s, q = Some s -> plain s = true) ->
  list_products q category limit skip (Some d) =
  (cursor <- cursor_skip skip
               (map product_doc
                  (List.filter (fun x => satisfies q category (snd x)) (db_product d))) ;;
   if negb (find_command_ok skip limit) then Uncaught OverflowError
   else Ok (map (fun p => to_str_id (Some p)) (cursor_limit limit cursor))).
Proof.
  intros Hq. unfold list_products.
  rewrite (products_filter_valid _ _ Hq). cbn [negb].
  unfold product_docs.
  change (fun x : ObjectId * Product.t => with_id (fst x) (Product.model_dump (snd x)))
    with product_doc.
  rewrite find_map.
  rewrite (filter_pointwise _ (fun x => satisfies q category (snd x)))
    by (intros x; now apply products_filter_matches).
  reflexivity.
Qed.

Lemma find_command_ok_nonneg (skip limit : Z) :
  (0 <= skip < 2 ^ 63)%Z -> (0 <= limit < 2 ^ 63)%Z ->
  find_command_ok skip limit = true.
Proof.
  intros [Hs0 Hs1] [Hl0 Hl1]. unfold find_command_ok, int64.
  rewrite (Z.abs_eq limit) by assumption.
  repeat (apply andb_true_intro; split);
    try (apply Z.leb_le); try (apply Z.ltb_lt); try assumption.
  - apply Z.le_trans with 0%Z; [now vm_compute|assumption].
  - apply Z.le_trans with 0%Z; [now vm_compute|assumption].
Qed.

(** The listing of products when the pattern is plain text and the page
    is a proper one. *)
Lemma list_products_page (q category : option string) (limit skip : Z) (d : Database) :
  (forall s, q = Some s -> plain s = true) ->
  (0 <= skip < 2 ^ 63)%Z ->
  (0 < limit < 2 ^ 63)%Z ->
  list_products q category limit skip (Some d) =
  Ok (map (fun x => to_str_id (Some (product_doc x)))
        (firstn (Z.to_nat limit)
           (skipn (Z.to_nat skip)
              (List.filter (fun x => satisfies q category (snd x))
                 (db_product d))))).
Proof.
  intros Hq [Hs0 Hs1] [Hl0 Hl1].
  rewrite (list_products_plain _ _ _ _ _ Hq).
  unfold cursor_skip. apply Z.ltb_ge in Hs0. rewrite Hs0. cbn [bind].
  rewrite (find_command_ok_nonneg skip limit) by lia.
  cbn [negb]. unfold cursor_limit.
  assert (Hne : (limit =? 0)%Z = false) by (apply Z.eqb_neq; lia).
  assert (Hpos : (0 <? limit)%Z = true) by (apply Z.ltb_lt; lia).
  rewrite Hne, Hpos.
  now rewrite skipn_map, firstn_map, map_map.
Qed.


Lemma satisfied_doc (q category : option string) (x : ObjectId * Product.t) :
  satisfies q category (snd x) = true ->
  (forall s, q = Some s -> text_contains s (to_str_id (Some (product_doc x)))) /\
  (forall c, category = Some c -> c <> "" ->
             category_is c (to_str_id (Some (product_doc x)))).
Proof.
  destruct x as [o p]. unfold satisfies. cbn [snd].
  intros [Hq Hc]%andb_prop. split.
  - intros s ->. unfold text_contains.
    destruct (str_truthy s) eqn:Hs.
    + apply orb_prop in Hq as [Ht | Hd].
      * eexists _, (Product.title p). split; [reflexivity|].
        split; [now left|]. now apply ci_contains_spec.
      * destruct (Product.description p) as [ds|] eqn:Hds; [|discriminate].
        eexists _, ds. split; [reflexivity|].
        split; [|now apply ci_contains_spec].
        right. replace (VStr ds) with (opt_str (Product.description p))
          by now rewrite Hds.
        reflexivity.
    + apply str_truthy_false in Hs as ->.
      eexists _, (Product.title p). split; [reflexivity|].
      split; [now left|]. now exists "", (lower_str (Product.title p)).
  - intros c -> Hne. apply str_truthy_true in Hne. rewrite Hne in Hc.
    apply String.eqb_eq in Hc as ->. eexists. split; reflexivity.
Qed.

(** C5, amended: for a listing whose [q], when given, is free of
    regular-expression metacharacters, with [0 <= skip] and [0 < limit]
    (both below [2^63]), the answer is the stored products that pass the
    filters, in stored order, without the first [skip] of them and cut
    after [limit]; so at most [limit] products come back, each contains
    [q] in its title or description when case is ignored, and each has
    exactly the given category, both when both are given.  An empty [q]
    or category counts as not given. *)
Theorem list_products_filters_and_page
    (q category : option string) (limit skip : Z) (d : Database) :
  (forall s, q = Some s -> plain s = true) ->
  (0 <= skip < 2 ^ 63)%Z ->
  (0 < limit < 2 ^ 63)%Z ->
  exists rs,
    list_products q category limit skip (Some d) = Ok rs /\
    rs = map (fun x => to_str_id (Some (product_doc x)))
           (firstn (Z.to_nat limit)
              (skipn (Z.to_nat skip)
                 (List.filter (fun x => satisfies q category (snd x))
                    (db_product d)))) /\
    (length rs <= Z.to_nat limit)%nat /\
    Forall (fun r =>
              (forall s, q = Some s -> text_contains s r) /\
              (forall c, category = Some c -> c <> "" -> category_is c r)) rs.
Proof.
  intros Hq Hskip Hlimit. eexists.
  split; [now apply list_products_page|]. split; [reflexivity|]. split.
  - rewrite length_map. apply firstn_le_length.
  - apply Stdlib.Lists.List.Forall_forall. intros r Hr.
    apply in_map_iff in Hr as (x & <- & Hx).
    apply In_firstn_incl, In_skipn_incl, filter_In in Hx as [_ Hsat].
    now apply satisfied_doc.
Qed.

End Listing.

(** ** Seeding *)

Section SeedProperties.
Context `{Collaborators}.

Lemma present_by_app {A : Type} (key : A -> string) (k : string)
    (l l' : list (ObjectId * A)) :
  present_by key k (l ++ l') = present_by key k l || present_by key k l'.
Proof. unfold present_by. apply existsb_app. Qed.

Lemma count_by_app {A : Type} (key : A -> string) (k : string)
    (l l' : list (ObjectId * A)) :
  count_by key k (l ++ l') = (count_by key k l + count_by key k l')%nat.
Proof. unfold count_by. now rewrite Stdlib.Lists.List.filter_app, length_app. Qed.

Lemma present_by_count {A : Type} (key : A -> string) (k : string)
    (l : list (ObjectId * A)) :
  present_by key k l = negb (Nat.eqb (count_by key k l) 0).
Proof.
  unfold present_by, count_by. induction l as [|x l IH]; simpl; [reflexivity|].
  destruct (String.eqb k (key (snd x))); simpl; [reflexivity|exact IH].
Qed.

Lemma ensure_all_extends {A : Type} (key : A -> string) (news : list A)
    (l : list (ObjectId * A)) (n : N) :
  exists ext, fst (ensure_all key news l n) = (l ++ ext)%list.
Proof.
  revert l n. induction news as [|a rest IH]; intros l n; simpl.
  - exists []. now rewrite app_nil_r.
  - destruct (present_by key (key a) l); [apply IH|].
    destruct (IH (l ++ [((n mod 2 ^ 96)%N, a)])%list (n + 1)%N) as [ext ->].
    eexists. now rewrite <- app_assoc.
Qed.

Lemma ensure_all_keeps {A : Type} (key : A -> string) (news : list A)
    (l : list (ObjectId * A)) (n : N) (k : string) :
  present_by key k l = true ->
  present_by key k (fst (ensure_all key news l n)) = true.
Proof.
  intros Hk. destruct (ensure_all_extends key news l n) as [ext ->].
  now rewrite present_by_app, Hk.
Qed.

Lemma ensure_all_present {A : Type} (key : A -> string) (news : list A)
    (l : list (ObjectId * A)) (n : N) (a : A) :
  In a news ->
  present_by key (key a) (fst (ensure_all key news l n)) = true.
Proof.
  revert l n. induction news as [|b rest IH]; intros l n; simpl; [contradiction|].
  intros [-> | Ha].
  - destruct (present_by key (key a) l) eqn:Hp.
    + now apply ensure_all_keeps.
    + apply ensure_all_keeps. rewrite present_by_app. unfold present_by at 2.
      simpl. now rewrite String.eqb_refl, orb_true_r.
  - destruct (present_by key (key b) l); now apply IH.
Qed.

Lemma ensure_all_fixed {A : Type} (key : A -> string) (news : list A)
    (l : list (ObjectId * A)) (n : N) :
  (forall a, In a news -> present_by key (key a) l = true) ->
  ensure_all key news l n = (l, n).
Proof.
  induction news as [|a rest IH]; simpl; [reflexivity|].
  intros Hall. rewrite (Hall a) by now left.
  apply IH. intros b Hb. apply Hall. now right.
Qed.

Lemma ensure_all_count_other {A : Type} (key : A -> string) (news : list A)
    (l : list (ObjectId * A)) (n : N) (k : string) :
  ~ In k (map key news) ->
  count_by key k (fst (ensure_all key news l n)) = count_by key k l.
Proof.
  revert l n. induction news as [|a rest IH]; intros l n; simpl; [reflexivity|].
  intros Hk. destruct (present_by key (key a) l).
  - apply IH. tauto.
  - rewrite IH by tauto. rewrite count_by_app. unfold count_by at 2. simpl.
    destruct (String.eqb k (key a)) eqn:Hka.
    + apply String.eqb_eq in Hka. destruct Hk. now left.
    + simpl. lia.
Qed.

Lemma ensure_all_count {A : Type} (key : A -> string) (news : list A)
    (l : list (ObjectId * A)) (n : N) (k : string) :
  NoDup (map key news) ->
  In k (map key news) ->
  count_by key k (fst (ensure_all key news l n)) = Nat.max 1 (count_by key k l).
Proof.
  revert l n. induction news as [|a rest IH]; intros l n; simpl; [contradiction|].
  intros Hnd Hk. inversion Hnd as [|b m Hnotin Hnd']; subst.
  rewrite list_elem_of_In in Hnotin.
  destruct (String.eqb_spec k (key a)) as [-> | Hne].
  - destruct (present_by key (key a) l) eqn:Hp.
    + rewrite ensure_all_count_other by assumption.
      rewrite present_by_count in Hp.
      destruct (count_by key (key a) l); [discriminate|]. lia.
    + rewrite ensure_all_count_other by assumption.
      rewrite count_by_app. unfold count_by at 2. simpl.
      rewrite String.eqb_refl. simpl.
      rewrite present_by_count in Hp.
      destruct (count_by key (key a) l); [reflexivity|discriminate].
  - destruct Hk as [Hk | Hk]; [congruence|].
    destruct (present_by key (key a) l).
    + now apply IH.
    + rewrite IH by assumption. rewrite count_by_app. unfold count_by at 2. simpl.
      apply String.eqb_neq in Hne. rewrite Hne. simpl. f_equal. lia.
Qed.

Lemma slug_query_present (s : string) (d : Database) :
  doc_truthy (find_one [FieldEq "slug" (OStr s)] (category_docs d)) =
  present_by Category.slug s (db_category d).
Proof.
  unfold category_docs. rewrite doc_truthy_find_one
    by (intros a; apply doc_truthy_with_id).
  apply existsb_pointwise. intros [o c].
  unfold query_matches. cbn [forallb]. now rewrite andb_true_r.
Qed.

Lemma title_query_present (t : string) (d : Database) :
  doc_truthy (find_one [FieldEq "title" (OStr t)] (product_docs d)) =
  present_by Product.title t (db_product d).
Proof.
  unfold product_docs. rewrite doc_truthy_find_one
    by (intros a; apply doc_truthy_with_id).
  apply existsb_pointwise. intros [o p].
  unfold query_matches. cbn [forallb]. now rewrite andb_true_r.
Qed.

Lemma username_query_present (u : string) (d : Database) :
  doc_truthy (find_one [FieldEq "username" (OStr u)] (user_docs d)) =
  present_by User.username u (db_user d).
Proof.
  unfold user_docs. rewrite doc_truthy_find_one
    by (intros a; apply doc_truthy_with_id).
  apply existsb_pointwise. intros [o x].
  unfold query_matches. cbn [forallb]. now rewrite andb_true_r.
Qed.

Lemma seed_category_fold (cs : list Category.t) (d : Database) :
  fold_left seed_category cs d =
  mkDatabase (db_user d)
    (fst (ensure_all Category.slug cs (db_category d) (next_oid d)))
    (db_product d) (db_order d)
    (snd (ensure_all Category.slug cs (db_category d) (next_oid d))).
Proof.
  revert d. induction cs as [|c cs IH]; intros d; simpl.
  - now destruct d.
  - rewrite IH. unfold seed_category. rewrite slug_query_present.
    now destruct (present_by Category.slug (Category.slug c) (db_category d)).
Qed.

Lemma seed_products_run (ps : list CreateProduct.t) (models : list Product.t)
    (d : Database) :
  Forall2 (fun p m => Product_of p = Ok m /\ Product.title m = CreateProduct.title p)
    ps models ->
  seed_products ps d =
  (Ok tt,
   mkDatabase (db_user d) (db_category d)
     (fst (ensure_all Product.title models (db_product d) (next_oid d)))
     (db_order d)
     (snd (ensure_all Product.title models (db_product d) (next_oid d)))).
Proof.
  intros Hall. revert d. induction Hall as [|p m ps models [Hm Ht] _ IH]; intros d; simpl.
  - now destruct d.
  - rewrite title_query_present, Ht.
    destruct (present_by Product.title (CreateProduct.title p) (db_product d)).
    + apply IH.
    + rewrite Hm. apply IH.
Qed.

Lemma sample_models_ok :
  Forall2 (fun p m => Product_of p = Ok m /\ Product.title m = CreateProduct.title p)
    sample_products sample_models.
Proof. repeat constructor. Qed.

Lemma seed_user_run (salt : string) (d : Database) :
  let demo := User.mk "demo" (Some "demo@example.com") None
                (bcrypt_hash salt "demo123") (Some "Demo User") true false in
  seed_user salt d =
  (Ok tt,
   mkDatabase (fst (ensure_all User.username [demo] (db_user d) (next_oid d)))
     (db_category d) (db_product d) (db_order d)
     (snd (ensure_all User.username [demo] (db_user d) (next_oid d)))).
Proof.
  intros demo. unfold seed_user. rewrite username_query_present. simpl.
  destruct (present_by User.username "demo" (db_user d)); [now destruct d|reflexivity].
Qed.

Lemma seed_run (salt : string) (d : Database) :
  seed salt (Some d) =
  (Ok (<["status" := VStr "seeded"]> ∅),
   Some (seeded (User.mk "demo" (Some "demo@example.com") None
                   (bcrypt_hash salt "demo123") (Some "Demo User") true false) d)).
Proof.
  unfold seed. rewrite seed_category_fold.
  rewrite (seed_products_run _ _ _ sample_models_ok).
  rewrite seed_user_run. reflexivity.
Qed.

Lemma seeded_again (demo demo' : User.t) (d : Database) :
  User.username demo = "demo" -> User.username demo' = "demo" ->
  seeded demo' (seeded demo d) = seeded demo d.
Proof.
  intros Hdemo Hdemo'. unfold seeded at 1.
  set (d1 := seeded demo d).
  assert (Hcats : ensure_all Category.slug base_categories (db_category d1) (next_oid d1)
                  = (db_category d1, next_oid d1)).
  { apply ensure_all_fixed. intros c Hc. now apply ensure_all_present. }
  rewrite Hcats. cbn [fst snd].
  assert (Hprods : ensure_all Product.title sample_models (db_product d1) (next_oid d1)
                   = (db_product d1, next_oid d1)).
  { apply ensure_all_fixed. intros p Hp. now apply ensure_all_present. }
  rewrite Hprods. cbn [fst snd].
  assert (Husers : ensure_all User.username [demo'] (db_user d1) (next_oid d1)
                   = (db_user d1, next_oid d1)).
  { apply ensure_all_fixed. intros u [<- | []]. rewrite Hdemo', <- Hdemo.
    apply ensure_all_present. now left. }
  rewrite Husers. cbn [fst snd]. now destruct d1.
Qed.

(** C8, amended: seeding succeeds from every state of a configured
    database, and a second run, whatever salt it draws, inserts nothing
    and leaves the first run's state as it is.  A run only appends: the
    records of the start state stay in place and unchanged.  After the
    runs the number of categories with a seeded slug, of products with a
    seeded title and of users named "demo" is what the start state held,
    and one where it held none: exactly one wherever the start state
    held at most one. *)
Theorem seed_twice (salt1 salt2 : string) (d : Database) :
  exists d1,
    seed salt1 (Some d) = (Ok (<["status" := VStr "seeded"]> ∅), Some d1) /\
    seed salt2 (Some d1) = (Ok (<["status" := VStr "seeded"]> ∅), Some d1) /\
    (exists cs ps us,
        db_category d1 = (db_category d ++ cs)%list /\
        db_product d1 = (db_product d ++ ps)%list /\
        db_user d1 = (db_user d ++ us)%list) /\
    db_order d1 = db_order d /\
    (forall c, In c base_categories ->
       count_by Category.slug (Category.slug c) (db_category d1) =
       Nat.max 1 (count_by Category.slug (Category.slug c) (db_category d))) /\
    (forall p, In p sample_products ->
       count_by Product.title (CreateProduct.title p) (db_product d1) =
       Nat.max 1 (count_by Product.title (CreateProduct.title p) (db_product d))) /\
    count_by User.username "demo" (db_user d1) =
    Nat.max 1 (count_by User.username "demo" (db_user d)).
Proof.
  eexists. split; [apply seed_run|]. split.
  { rewrite seed_run. now rewrite seeded_again. }
  unfold seeded. cbn [db_category db_product db_user db_order].
  split; [|split; [reflexivity|split; [|split]]].
  - destruct (ensure_all_extends Category.slug base_categories
                (db_category d) (next_oid d)) as [cs Hcs].
    set (n1 := snd (ensure_all Category.slug base_categories
                      (db_category d) (next_oid d))).
    destruct (ensure_all_extends Product.title sample_models
                (db_product d) n1) as [ps Hps].
    set (n2 := snd (ensure_all Product.title sample_models (db_product d) n1)).
    match goal with
    | |- context [ensure_all User.username ?us (db_user d) n2] =>
        destruct (ensure_all_extends User.username us (db_user d) n2) as [us' Hus]
    end.
    exists cs, ps, us'. now rewrite Hcs, Hps, Hus.
  - intros c Hc. apply ensure_all_count.
    + apply (bool_decide_unpack _). vm_compute. exact I.
    + now apply in_map.
  - intros p Hp. apply ensure_all_count.
    + apply (bool_decide_unpack _). vm_compute. exact I.
    + change (map Product.title sample_models)
        with (map CreateProduct.title sample_products). now apply in_map.
  - apply ensure_all_count.
    + apply NoDup_singleton.
    + now left.
Qed.

End SeedProperties.

(** ** The uniqueness of stored users is an invariant *)

Section Invariant.
Context `{Collaborators}.

Lemma users_unique_empty : users_unique empty_db.
Proof. split; apply NoDup_nil_2. Qed.

Lemma users_unique_same (d d' : Database) :
  db_user d' = db_user d -> users_unique d -> users_unique d'.
Proof. unfold users_unique. now intros ->. Qed.

Lemma existsb_none {A : Type} (f : A -> bool) (l : list A) :
  existsb f l = false <-> forall x, In x l -> f x = false.
Proof.
  induction l as [|a l IH]; simpl.
  - split; [intros _ x []|reflexivity].
  - rewrite orb_false_iff, IH. split.
    + intros [Ha Hl] x [<- | Hx]; auto.
    + intros Hall. split; [apply Hall; now left|].
      intros x Hx. apply Hall. now right.
Qed.

Lemma not_present_by {A : Type} (key : A -> string) (k : string)
    (l : list (ObjectId * A)) :
  present_by key k l = false -> ~ In k (map (fun x => key (snd x)) l).
Proof.
  unfold present_by. intros Hnone (x & Hx & Hin)%in_map_iff.
  assert (Hall := proj1 (existsb_none _ _) Hnone).
  specialize (Hall x Hin). simpl in Hall.
  rewrite Hx, String.eqb_refl in Hall. discriminate.
Qed.

Lemma users_unique_append (d : Database) (o : ObjectId) (u : User.t) :
  users_unique d ->
  present_by User.username (User.username u) (db_user d) = false ->
  (forall p, In p (phone_key (o, u)) -> ~ In p (flat_map phone_key (db_user d))) ->
  NoDup (map (fun x => User.username (snd x)) (db_user d ++ [(o, u)])) /\
  NoDup (flat_map phone_key (db_user d ++ [(o, u)])).
Proof.
  intros [Hnames Hphones] Hname Hphone. split.
  - rewrite map_app. apply NoDup_app. split; [assumption|]. split.
    + intros k Hk Hk'. apply list_elem_of_In in Hk, Hk'.
      destruct Hk' as [<- | []]. now apply (not_present_by _ _ _ Hname).
    + apply NoDup_singleton.
  - rewrite flat_map_app. simpl. rewrite app_nil_r.
    apply NoDup_app. split; [assumption|]. split.
    + intros k Hk Hk'. apply (Hphone k); now apply list_elem_of_In.
    + unfold phone_key. simpl. destruct (User.phone u) as [p|]; [|apply NoDup_nil_2].
      destruct (str_truthy p); [apply NoDup_singleton|apply NoDup_nil_2].
Qed.

Lemma signup_keeps_users_unique (salt : string) (payload : SignupRequest.t)
    (d d' : Database) (r : result document) :
  users_unique d ->
  signup salt payload (Some d) = (r, Some d') ->
  users_unique d'.
Proof.
  intros Huniq. unfold signup.
  destruct (negb _ || negb _); [now intros [= _ <-]|].
  rewrite signup_existing.
  destruct (existsb _ (db_user d)) eqn:Hex; [now intros [= _ <-]|].
  rewrite signup_user_doc.
  destruct (negb (secret_accepted _)); [now intros [= _ <-]|].
  destruct (_ && _); [|now intros [= _ <-]].
  cbn. intros [= _ <-]. unfold users_unique. cbn [db_user].
  assert (Hall := proj1 (existsb_none _ _) Hex).
  apply users_unique_append; [assumption| |].
  - unfold present_by. apply existsb_none.
    intros x Hx. specialize (Hall x Hx). simpl in Hall.
    apply orb_false_elim in Hall as [[Hc _]%orb_false_elim _].
    unfold conflicts_with in Hc.
    now apply orb_false_elim in Hc as [[Hc _]%orb_false_elim _].
  - unfold phone_key. cbn [snd User.phone].
    destruct (SignupRequest.phone payload) as [p|] eqn:Hp; [|intros ? []].
    destruct (str_truthy p) eqn:Htruthy; [|intros ? []].
    intros k [<- | []] (x & Hx & Hk)%in_flat_map.
    specialize (Hall x Hx). simpl in Hall.
    apply orb_false_elim in Hall as [[Hc _]%orb_false_elim _].
    unfold conflicts_with in Hc.
    apply orb_false_elim in Hc as [[_ Hc]%orb_false_elim _].
    unfold supplied_eq in Hc. rewrite Hp, Htruthy in Hc. simpl in Hc.
    unfold phone_key in Hk. destruct (User.phone (snd x)) as [p'|]; [|destruct Hk].
    destruct (str_truthy p'); [|destruct Hk]. destruct Hk as [<- | []].
    now rewrite String.eqb_refl in Hc.
Qed.

Lemma seed_keeps_users_unique (salt : string) (d d' : Database)
    (r : result document) :
  users_unique d ->
  seed salt (Some d) = (r, Some d') ->
  users_unique d'.
Proof.
  intros Huniq. rewrite seed_run. intros [= _ <-].
  unfold users_unique, seeded. cbn [db_user ensure_all].
  destruct (present_by User.username _ (db_user d)) eqn:Hp; cbn [fst]; [assumption|].
  apply users_unique_append; [assumption|exact Hp|intros p []].
Qed.

(** Every store that the handlers reach from the empty one has unique
    users. *)
Lemma reachable_users_unique (d : Database) : reachable d -> users_unique d.
Proof.
  induction 1 as [| d salt payload r d' _ IH Hstep
                  | d payload r d' _ IH Hstep
                  | d payload r d' _ IH Hstep
                  | d payload r d' _ IH Hstep
                  | d salt r d' _ IH Hstep].
  - apply users_unique_empty.
  - eapply signup_keeps_users_unique; eassumption.
  - apply (users_unique_same d); [|assumption].
    unfold create_category in Hstep.
    destruct (doc_truthy _); now injection Hstep as _ <-.
  - apply (users_unique_same d); [|assumption].
    unfold create_product in Hstep.
    destruct (Product_of payload); now injection Hstep as _ <-.
  - apply (users_unique_same d); [|assumption].
    unfold checkout in Hstep.
    destruct (line_totals _); try now injection Hstep as _ <-.
    destruct (insert_order _ d) as [[o d'']| |] eqn:Hins;
      try now injection Hstep as _ <-.
    injection Hstep as _ <-. unfold insert_order in Hins.
    destruct (forallb _ _); [|discriminate]. now injection Hins as _ <-.
  - eapply seed_keeps_users_unique; eassumption.
Qed.

End Invariant.

(** ** The statements at concrete requests and stores *)

(** The bound of [float_of_int] is where rounding to binary64 first
    overflows. *)
Example float_of_int_bound :
  PrimFloat.is_infinity (float_of_Z (2 ^ 1024 - 2 ^ 970 - 1)) = false /\
  PrimFloat.is_infinity (float_of_Z (2 ^ 1024 - 2 ^ 970)) = true /\
  PrimFloat.is_infinity (float_of_Z (- (2 ^ 1024 - 2 ^ 970 - 1))) = false /\
  PrimFloat.is_infinity (float_of_Z (- (2 ^ 1024 - 2 ^ 970))) = true.
Proof. vm_compute. repeat split. Qed.

(** [ObjectId(s)] reads 24 hexadecimal digits of either case as the
    twelve bytes that [str] prints back in lower case; it also lets
    through 24 characters with blanks around the pairs, which hold fewer
    bytes, and refuses a blank inside a pair. *)
Example ObjectId_of_str_examples :
  ObjectId_of_str "507F1f77bcf86cd799439011"
    = Some (binary 24912482966938930280208240657%N) /\
  str_ObjectId 24912482966938930280208240657%N = "507f1f77bcf86cd799439011" /\
  ObjectId_of_str "00 11 22 33 44 55 66 77 "
    = Some [0; 17; 34; 51; 68; 85; 102; 119]%N /\
  ObjectId_of_str "0 0112233445566778899aa" = None /\
  ObjectId_of_str "507f1f77bcf86cd79943901" = None.
Proof. vm_compute. repeat split. Qed.

(** C1 at a failing input: alice is the only stored user, bob signs up
    without phone or email, no stored user has bob's username, and the
    answer is 409. *)
Lemma signup_bob_refused :
  existsb (fun x => conflicts_with signup_bob (snd x)) (db_user db_alice) = false /\
  @signup sample_collaborators "salt" signup_bob (Some db_alice) =
  (HTTPException 409 "Account already exists", Some db_alice).
Proof.
  split; [reflexivity|].
  apply (@signup_conflicts_when_contact_omitted sample_collaborators
           "salt" signup_bob db_alice);
    [reflexivity | reflexivity | left; reflexivity | discriminate].
Defined.

(** C2 fails as stated: a quantity of [2^1024] makes the product of
    price and quantity raise, and nothing is returned or persisted. *)
Lemma checkout_overflow_counterexample :
  @checkout sample_collaborators order_overflow (Some empty_db) =
  (Uncaught OverflowError, Some empty_db).
Proof. vm_compute. reflexivity. Qed.

(** C2 at the request of the spec: 10 x 2 and 5 x 1 give the total 25
    and the status "placed", returned and persisted. *)
Lemma checkout_25_placed :
  @checkout sample_collaborators order_10x2_5x1 (Some empty_db) =
  (Ok (<["order_id" := VStr "000000000000000000000000"]>
      (<["total" := VFloat 25%float]>
      (<["status" := VStr "placed"]> ∅))),
   Some (mkDatabase [] [] []
           [(0%N, Order.mk "u1" (CheckoutRequest.items order_10x2_5x1)
                    25%float "1 Main Street" "placed")] 1)).
Proof.
  apply (@checkout_total_and_status sample_collaborators order_10x2_5x1 empty_db).
  repeat constructor.
Defined.

(** C3 at a stored user: alice logs in with her username and password. *)
Lemma login_alice_accepted :
  @login sample_collaborators login_alice (Some db_alice) =
  Ok (<["id" := VStr "000000000000000000000000"]>
     (<["username" := VStr "alice"]>
     (<["name" := VNone]> ∅))).
Proof.
  assert (Huniq : users_unique db_alice).
  { split; [apply NoDup_singleton | apply NoDup_nil_2]. }
  apply (proj1 (proj2 (@login_succeeds_iff sample_collaborators login_alice db_alice
                         Huniq eq_refl (or_introl eq_refl))) (0%N, alice));
    [left; reflexivity | reflexivity | split; reflexivity].
Defined.

(** C3 fails as stated, twice over.  Alice is stored and a login as
    alice carries a password with a NUL in it: no stored hash verifies
    it, yet the answer is not the 401 but an uncaught [ValueError] of the
    hasher.  And on a store with two users named bob the second bob
    matches the login and the password verifies against his hash, yet
    the answer is 401: [find_one] stops at the first bob. *)
Lemma login_counterexample :
  (str_truthy (LoginRequest.password login_alice_nul) = true /\
   @login sample_collaborators login_alice_nul (Some db_alice) = Uncaught ValueError) /\
  (In (1%N, User.mk "bob" None None "s$second" None true false) (db_user db_two_bobs) /\
   identified_by login_bob (User.mk "bob" None None "s$second" None true false) = true /\
   @passlib_verify sample_collaborators (LoginRequest.password login_bob) "s$second"
     = Ok true /\
   @login sample_collaborators login_bob (Some db_two_bobs)
     = HTTPException 401 "Invalid credentials").
Proof.
  split; [split; reflexivity|].
  split; [right; left; reflexivity|]. repeat split.
Qed.

(** C4 fails as stated: an order with a negative price and a negative
    quantity is accepted and persisted. *)
Lemma checkout_negative_counterexample :
  forallb item_nonneg (CheckoutRequest.items order_negative) = false /\
  exists resp total,
    @checkout sample_collaborators order_negative (Some empty_db) =
    (Ok resp,
     Some (mkDatabase [] [] []
             [(0%N, Order.mk "u1" (CheckoutRequest.items order_negative)
                      total "1 Main Street" "placed")] 1)).
Proof. split; [reflexivity|]. do 2 eexists. vm_compute. reflexivity. Qed.

(** C4, amended, at that request. *)
Lemma checkout_negative_persisted :
  exists resp d' oid order,
    @checkout sample_collaborators order_negative (Some empty_db) = (Ok resp, Some d') /\
    db_order d' = (db_order empty_db ++ [(oid, order)])%list /\
    Order.items order = CheckoutRequest.items order_negative /\
    (forallb item_nonneg (Order.items order) = true <->
     forallb item_nonneg (CheckoutRequest.items order_negative) = true).
Proof.
  apply (@checkout_persists_items_as_submitted sample_collaborators
           order_negative empty_db).
  repeat constructor.
Defined.

(** C5 fails as stated, twice over.  With [limit = 0] the listing is not
    cut at all: one product comes back, more than the limit.  And [q] is
    a regular expression: the pattern [l.mp] finds the lamp, whose title
    and description do not contain those four characters. *)
Lemma list_products_counterexample :
  @list_products sample_collaborators None None 0 0 (Some db_lamp) =
    Ok [@to_str_id sample_collaborators (Some (product_doc (0%N, lamp)))] /\
  @list_products sample_collaborators (Some "l.mp") None 20 0 (Some db_lamp) =
    Ok [@to_str_id sample_collaborators (Some (product_doc (0%N, lamp)))] /\
  ~ text_contains "l.mp" (@to_str_id sample_collaborators (Some (product_doc (0%N, lamp)))).
Proof.
  split; [vm_compute; reflexivity|]. split; [vm_compute; reflexivity|].
  intros (r' & s & Hr & Hfield & Hc%ci_contains_spec).
  injection Hr as <-.
  destruct Hfield as [Hs | Hs]; vm_compute in Hs; injection Hs as <-;
    vm_compute in Hc; discriminate.
Qed.

(** C5, amended, at a listing of the lamp by text and category. *)
Lemma list_products_lamp :
  exists rs,
    @list_products sample_collaborators (Some "LAM") (Some "Home") 20 0 (Some db_lamp)
      = Ok rs /\
    rs = map (fun x => @to_str_id sample_collaborators (Some (product_doc x)))
           (firstn (Z.to_nat 20)
              (skipn (Z.to_nat 0)
                 (List.filter (fun x => satisfies (Some "LAM") (Some "Home") (snd x))
                    (db_product db_lamp)))) /\
    (length rs <= Z.to_nat 20)%nat /\
    Forall (fun r =>
              (forall s, Some "LAM" = Some s -> text_contains s r) /\
              (forall c, Some "Home" = Some c -> c <> "" -> category_is c r)) rs.
Proof.
  apply (@list_products_filters_and_page sample_collaborators
           (Some "LAM") (Some "Home") 20 0 db_lamp).
  - intros s [= <-]. reflexivity.
  - split; [discriminate|reflexivity].
  - split; reflexivity.
Defined.

(** C7 fails as stated: a two-character username is not empty and meets
    no stored user, yet the [User] model rejects it and signup raises. *)
Lemma signup_short_username_counterexample :
  SignupRequest.username signup_ab <> "" /\
  SignupRequest.password signup_ab <> "" /\
  db_user empty_db = [] /\
  @signup sample_collaborators "salt" signup_ab (Some empty_db) =
  (Uncaught ValidationError, Some empty_db).
Proof. repeat split; try discriminate. Qed.

(** C7, amended, at the first signup on an empty store. *)
Lemma signup_alice_created :
  @signup sample_collaborators "s" signup_alice (Some empty_db) =
  (Ok (<["id" := VStr "000000000000000000000000"]>
      (<["username" := VStr "alice"]> ∅)),
   Some (mkDatabase
           [(0%N, User.mk "alice" None None "s$secret" (Some "Alice") true false)]
           [] [] [] 1)).
Proof.
  apply (proj2 (@signup_validation_and_success sample_collaborators
                  "s" signup_alice empty_db)).
  - discriminate.
  - discriminate.
  - intros x [].
  - now right.
  - reflexivity.
  - simpl. lia.
Defined.


(** C6 at a failing input: the lamp is stored under the identifier that
    prints as 24 zeros, and asking for it on the configured store ends in
    the uncaught [NotImplementedError]. *)
Lemma get_product_lamp_raises :
  In (0%N, lamp) (db_product db_lamp) /\
  str_ObjectId 0%N = "000000000000000000000000" /\
  @get_product sample_collaborators "000000000000000000000000" (Some db_lamp) =
  Uncaught NotImplementedError.
Proof.
  split; [left; reflexivity|]. split; [reflexivity|].
  assert (Hwf : well_formed_id "000000000000000000000000").
  { split; [reflexivity|].
    repeat (apply pairs_byte; [reflexivity|reflexivity|]). apply pairs_end. }
  exact (proj2 (proj2 (@get_product_outcomes sample_collaborators
                         "000000000000000000000000" (Some db_lamp)))
           Hwf db_lamp eq_refl).
Defined.

(** [list_categories] on a store with one category. *)
Example list_categories_configured :
  @list_categories sample_collaborators (Some db_books) = Uncaught NotImplementedError.
Proof. reflexivity. Qed.

(** [get_product] on a malformed identifier, and without a database on
    an identifier written with blanks. *)
Example get_product_malformed :
  @get_product sample_collaborators "not-an-object-id" (Some db_lamp) =
  HTTPException 400 "Invalid id".
Proof. reflexivity. Qed.

Example get_product_unconfigured :
  @get_product sample_collaborators "00 11 22 33 44 55 66 77 " None =
  HTTPException 404 "Not found".
Proof. reflexivity. Qed.

(** C8 fails as stated: "Bestselling Novel" is created twice through
    [create_product], which checks no uniqueness; seeding twice from that
    state leaves two products with that seeded title, not one. *)
Lemma seed_twice_counterexample :
  (exists r1 r2 d0,
      @create_product sample_collaborators novel_request (Some empty_db)
        = (Ok r1, Some d0) /\
      @create_product sample_collaborators novel_request (Some d0)
        = (Ok r2, Some db_novels)) /\
  In "Bestselling Novel" (map CreateProduct.title sample_products) /\
  exists r r' d1 d2,
    @seed sample_collaborators "salt1" (Some db_novels) = (Ok r, Some d1) /\
    @seed sample_collaborators "salt2" (Some d1) = (Ok r', Some d2) /\
    count_by Product.title "Bestselling Novel" (db_product d2) = 2%nat.
Proof.
  split; [|split].
  - do 3 eexists. split; reflexivity.
  - simpl. tauto.
  - do 4 eexists. split; [reflexivity|]. split; reflexivity.
Qed.

(** * Further properties of the handlers *)

Section Categories.
Context `{Collaborators}.


Lemma create_category_run (payload : CreateCategory.t) (d : Database) :
  create_category payload (Some d) =
  if present_by Category.slug (CreateCategory.slug payload) (db_category d)
  then (HTTPException 409 "Category exists", Some d)
  else
    (Ok (<["id" := VStr (str_ObjectId (fresh_oid d))]> ∅),
     Some (mkDatabase (db_user d)
             (db_category d ++
              [(fresh_oid d,
                Category.mk (CreateCategory.name payload) (CreateCategory.slug payload))])
             (db_product d) (db_order d) (next_oid d + 1))).
Proof.
  unfold create_category. rewrite slug_query_present.
  now destruct (present_by _ _ _).
Qed.


End Categories.

Section Writes.
Context `{Collaborators}.

Lemma ensure_all_NoDup {A : Type} (key : A -> string) (news : list A)
    (l : list (ObjectId * A)) (n : N) :
  NoDup (map (fun x => key (snd x)) l) ->
  NoDup (map (fun x => key (snd x)) (fst (ensure_all key news l n))).
Proof.
  revert l n. induction news as [|a rest IH]; intros l n Hnd; simpl; [assumption|].
  destruct (present_by key (key a) l) eqn:Hp; [now apply IH|].
  apply IH. rewrite map_app. apply NoDup_app. split; [assumption|]. split.
  - intros k Hk Hk'. apply list_elem_of_In in Hk, Hk'.
    destruct Hk' as [<- | []]. now apply (not_present_by _ _ _ Hp).
  - apply NoDup_singleton.
Qed.

Lemma create_category_keeps_slugs_unique (payload : CreateCategory.t)
    (d d' : Database) (r : result document) :
  slugs_unique d ->
  create_category payload (Some d) = (r, Some d') ->
  slugs_unique d'.
Proof.
  intros Huniq. rewrite create_category_run.
  destruct (present_by _ _ _) eqn:Hp; intros [= _ <-]; [assumption|].
  unfold slugs_unique. cbn [db_category]. rewrite map_app.
  apply NoDup_app. split; [assumption|]. split.
  - intros k Hk Hk'. apply list_elem_of_In in Hk, Hk'.
    destruct Hk' as [<- | []]. now apply (not_present_by _ _ _ Hp).
  - apply NoDup_singleton.
Qed.

(** The collections that a handler leaves alone. *)
Lemma signup_frame (salt : string) (payload : SignupRequest.t)
    (d d' : Database) (r : result document) :
  signup salt payload (Some d) = (r, Some d') ->
  db_category d' = db_category d /\ db_product d' = db_product d /\
  db_order d' = db_order d.
Proof.
  unfold signup. destruct (negb _ || negb _); [now intros [= _ <-]|].
  destruct (doc_truthy _); [now intros [= _ <-]|].
  destruct (bind _ _); now intros [= _ <-].
Qed.

Lemma create_product_frame (payload : CreateProduct.t)
    (d d' : Database) (r : result document) :
  create_product payload (Some d) = (r, Some d') ->
  db_user d' = db_user d /\ db_category d' = db_category d /\
  db_order d' = db_order d.
Proof.
  unfold create_product. destruct (Product_of payload); now intros [= _ <-].
Qed.

Lemma checkout_frame (payload : CheckoutRequest.t)
    (d d' : Database) (r : result document) :
  checkout payload (Some d) = (r, Some d') ->
  db_user d' = db_user d /\ db_category d' = db_category d /\
  db_product d' = db_product d.
Proof.
  unfold checkout. destruct (line_totals _); try now intros [= _ <-].
  unfold insert_order. destruct (forallb _ _); now intros [= _ <-].
Qed.

(** X2: over any sequence of requests from the empty store, no two
    stored users share a username or a non-empty phone, and no two stored
    categories share a slug: the existence checks of [signup],
    [create_category] and [seed] keep both. *)
Theorem reachable_keys_unique (d : Database) :
  reachable d -> users_unique d /\ slugs_unique d.
Proof.
  intros Hreach. split; [now apply reachable_users_unique|].
  induction Hreach as [| d salt payload r d' _ IH Hstep
                  | d payload r d' _ IH Hstep
                  | d payload r d' _ IH Hstep
                  | d payload r d' _ IH Hstep
                  | d salt r d' _ IH Hstep].
  - apply NoDup_nil_2.
  - destruct (signup_frame _ _ _ _ _ Hstep) as (Hc & _).
    unfold slugs_unique. now rewrite Hc.
  - eapply create_category_keeps_slugs_unique; eassumption.
  - destruct (create_product_frame _ _ _ _ Hstep) as (_ & Hc & _).
    unfold slugs_unique. now rewrite Hc.
  - destruct (checkout_frame _ _ _ _ Hstep) as (_ & Hc & _).
    unfold slugs_unique. now rewrite Hc.
  - rewrite seed_run in Hstep. injection Hstep as _ <-.
    unfold slugs_unique, seeded. cbn [db_category].
    now apply ensure_all_NoDup.
Qed.

(** X3: a request that a writing handler refuses or fails on leaves the
    store exactly as it was: whenever [signup], [create_category],
    [create_product] or [checkout] answers anything but success, the
    state after is the state before. *)
Theorem failed_write_changes_nothing :
  (forall salt payload db r db',
      signup salt payload db = (r, db') -> (forall a, r <> Ok a) -> db' = db) /\
  (forall payload db r db',
      create_category payload db = (r, db') -> (forall a, r <> Ok a) -> db' = db) /\
  (forall payload db r db',
      create_product payload db = (r, db') -> (forall a, r <> Ok a) -> db' = db) /\
  (forall payload db r db',
      checkout payload db = (r, db') -> (forall a, r <> Ok a) -> db' = db).
Proof.
  repeat split.
  - intros salt payload [d|] r db'; [|now intros [= _ <-]]. unfold signup.
    destruct (negb _ || negb _); [now intros [= _ <-]|].
    destruct (doc_truthy _); [now intros [= _ <-]|].
    destruct (bind _ _); try now intros [= _ <-].
    destruct (insert_user _ d). intros [= <- _] Hfail. now destruct (Hfail _ eq_refl).
  - intros payload [d|] r db'; [|now intros [= _ <-]]. unfold create_category.
    destruct (doc_truthy _); [now intros [= _ <-]|].
    destruct (insert_category _ d). intros [= <- _] Hfail. now destruct (Hfail _ eq_refl).
  - intros payload [d|] r db'; [|now intros [= _ <-]]. unfold create_product.
    destruct (Product_of payload); try now intros [= _ <-].
    destruct (insert_product _ d). intros [= <- _] Hfail. now destruct (Hfail _ eq_refl).
  - intros payload [d|] r db'; [|now intros [= _ <-]]. unfold checkout.
    destruct (line_totals _); try now intros [= _ <-].
    destruct (insert_order _ d) as [[o d'']| |]; try now intros [= _ <-].
    intros [= <- _] Hfail. now destruct (Hfail _ eq_refl).
Qed.

(** X4: a writing handler that succeeds adds exactly one record, at the
    end of its own collection, and changes nothing else: the records
    stored before stay in place and unchanged, and the other collections
    are untouched. *)
Theorem successful_write_appends_one :
  (forall salt payload d resp d',
      signup salt payload (Some d) = (Ok resp, Some d') ->
      (exists x, db_user d' = (db_user d ++ [x])%list) /\
      db_category d' = db_category d /\ db_product d' = db_product d /\
      db_order d' = db_order d) /\
  (forall payload d resp d',
      create_category payload (Some d) = (Ok resp, Some d') ->
      (exists x, db_category d' = (db_category d ++ [x])%list) /\
      db_user d' = db_user d /\ db_product d' = db_product d /\
      db_order d' = db_order d) /\
  (forall payload d resp d',
      create_product payload (Some d) = (Ok resp, Some d') ->
      (exists x, db_product d' = (db_product d ++ [x])%list) /\
      db_user d' = db_user d /\ db_category d' = db_category d /\
      db_order d' = db_order d) /\
  (forall payload d resp d',
      checkout payload (Some d) = (Ok resp, Some d') ->
      (exists x, db_order d' = (db_order d ++ [x])%list) /\
      db_user d' = db_user d /\ db_category d' = db_category d /\
      db_product d' = db_product d).
Proof.
  split; [|split; [|split]].
  - intros salt payload d resp d'. unfold signup.
    destruct (negb _ || negb _); [discriminate|].
    destruct (doc_truthy _); [discriminate|].
    destruct (bind _ _) as [u| |]; try discriminate.
    unfold insert_user. intros [= _ <-]. cbn [db_user db_category db_product db_order].
    eauto.
  - intros payload d resp d'. unfold create_category.
    destruct (doc_truthy _); [discriminate|].
    unfold insert_category. intros [= _ <-].
    cbn [db_user db_category db_product db_order]. eauto.
  - intros payload d resp d'. unfold create_product.
    destruct (Product_of payload) as [p| |]; try discriminate.
    unfold insert_product. intros [= _ <-].
    cbn [db_user db_category db_product db_order]. eauto.
  - intros payload d resp d'. unfold checkout.
    destruct (line_totals _); try discriminate.
    unfold insert_order. destruct (forallb _ _); [|discriminate].
    intros [= _ <-]. cbn [db_user db_category db_product db_order]. eauto.
Qed.

End Writes.

Section Accounts.
Context `{Collaborators}.

Lemma to_str_id_with_id (o : ObjectId) (body : document) :
  body !! "_id" = None ->
  to_str_id (Some (with_id o body)) = Some (<["id" := VStr (str_ObjectId o)]> body).
Proof.
  intros Hbody. unfold with_id.
  rewrite (to_str_id_pops _ (VObjectId o)) by apply lookup_insert_eq.
  now rewrite delete_insert_id.
Qed.

(** X6: [to_str_id] is idempotent: projecting an already projected
    document changes nothing, since the ["_id"] it looks for is gone;
    [None] and a dictionary without ["_id"] come back as they are. *)
Theorem to_str_id_idempotent (doc : option document) :
  to_str_id (to_str_id doc) = to_str_id doc /\
  (forall d, doc = Some d -> d !! "_id" = None -> to_str_id doc = doc) /\
  to_str_id None = None.
Proof.
  split; [|split; [|reflexivity]].
  - destruct doc as [d|]; [|reflexivity].
    destruct (d !! "_id") as [v|] eqn:Hid.
    + rewrite (to_str_id_pops d v Hid). unfold to_str_id.
      rewrite lookup_insert_ne by discriminate. now rewrite lookup_delete_eq.
    + assert (Hsame : to_str_id (Some d) = Some d)
        by (unfold to_str_id; now rewrite Hid).
      now rewrite !Hsame.
  - intros d -> Hid. unfold to_str_id. now rewrite Hid.
Qed.

(** X7: with the database configured, [login] answers 400 exactly when
    the password is empty or neither a username nor a phone is supplied;
    the password is checked first, so an empty password gives "Password
    required" whatever else is sent, and otherwise the detail is "Provide
    username or phone". *)
Theorem login_rejects_incomplete (payload : LoginRequest.t) (d : Database) :
  ((exists detail, login payload (Some d) = HTTPException 400 detail) <->
   LoginRequest.password payload = "" \/
   (opt_truthy (LoginRequest.username payload) = false /\
    opt_truthy (LoginRequest.phone payload) = false)) /\
  (LoginRequest.password payload = "" ->
   login payload (Some d) = HTTPException 400 "Password required") /\
  (LoginRequest.password payload <> "" ->
   opt_truthy (LoginRequest.username payload) = false ->
   opt_truthy (LoginRequest.phone payload) = false ->
   login payload (Some d) = HTTPException 400 "Provide username or phone").
Proof.
  assert (Hempty : LoginRequest.password payload = "" ->
                   login payload (Some d) = HTTPException 400 "Password required").
  { intros Hp%str_truthy_false. unfold login. now rewrite Hp. }
  assert (Hnone : LoginRequest.password payload <> "" ->
            opt_truthy (LoginRequest.username payload) = false ->
            opt_truthy (LoginRequest.phone payload) = false ->
            login payload (Some d) = HTTPException 400 "Provide username or phone").
  { intros Hp%str_truthy_true Hu Hph. unfold login, login_query. rewrite Hp.
    unfold opt_truthy in Hu, Hph.
    destruct (LoginRequest.username payload) as [u|];
      destruct (LoginRequest.phone payload) as [p|];
      rewrite ?Hu, ?Hph; reflexivity. }
  split; [|split; assumption]. split.
  - intros [detail Hd].
    destruct (str_truthy (LoginRequest.password payload)) eqn:Hp;
      [|left; now apply str_truthy_false].
    right.
    destruct (opt_truthy (LoginRequest.username payload)) eqn:Hu.
    + rewrite (login_checked _ _ Hp (or_introl Hu)) in Hd.
      unfold passlib_verify in Hd.
      destruct (List.find _ _);
        [destruct (secret_accepted _);
         [destruct (bcrypt_verify _ _) as [[|]|]|]; cbn in Hd|]; discriminate.
    + destruct (opt_truthy (LoginRequest.phone payload)) eqn:Hph; [|now split].
      rewrite (login_checked _ _ Hp (or_intror Hph)) in Hd.
      unfold passlib_verify in Hd.
      destruct (List.find _ _);
        [destruct (secret_accepted _);
         [destruct (bcrypt_verify _ _) as [[|]|]|]; cbn in Hd|]; discriminate.
  - intros [Hp | [Hu Hph]]; [eauto|].
    destruct (str_truthy (LoginRequest.password payload)) eqn:Hp.
    + apply str_truthy_true in Hp. eauto.
    + apply str_truthy_false in Hp. eauto.
Qed.

(** X8: the answer of a successful [login] holds the three fields [id],
    [username] and [name] and no other: in particular it never carries
    the stored password hash. *)
Theorem login_response_fields
    (payload : LoginRequest.t) (db : option Database) (resp : document) :
  login payload db = Ok resp ->
  is_Some (resp !! "id") /\ is_Some (resp !! "username") /\
  is_Some (resp !! "name") /\
  forall k : string, k <> "id" -> k <> "username" -> k <> "name" -> resp !! k = None.
Proof.
  unfold login. destruct db as [d|]; [|discriminate].
  destruct (negb _); [discriminate|].
  destruct (login_query payload); [discriminate|].
  destruct (find_one _ _) as [user|]; [|discriminate].
  destruct (negb _); [discriminate|].
  destruct (passlib_verify _ _) as [[|]| |]; cbn [bind negb]; try discriminate.
  destruct (user !! "_id") as [i|]; [|discriminate].
  intros [= <-]. repeat split.
  - rewrite lookup_insert_eq. eauto.
  - rewrite lookup_insert_ne, lookup_insert_eq by discriminate. eauto.
  - rewrite !lookup_insert_ne, lookup_insert_eq by discriminate. eauto.
  - intros k H1 H2 H3. now rewrite !lookup_insert_ne, lookup_empty by congruence.
Qed.

Lemma find_appended {A : Type} (f : A -> bool) (l : list A) (y : A) :
  (forall x, In x l -> f x = false) -> f y = true ->
  List.find f (l ++ [y]) = Some y.
Proof.
  intros Hl Hy. induction l as [|a l IH]; simpl.
  - now rewrite Hy.
  - rewrite (Hl a) by now left. apply IH. intros x Hx. apply Hl. now right.
Qed.

Lemma signup_ok_inv (salt : string) (payload : SignupRequest.t)
    (d d' : Database) (resp : document) :
  signup salt payload (Some d) = (Ok resp, Some d') ->
  str_truthy (SignupRequest.username payload) = true /\
  str_truthy (SignupRequest.password payload) = true /\
  (forall x, In x (db_user d) -> conflicts_with payload (snd x) = false) /\
  resp = <["id" := VStr (str_ObjectId (fresh_oid d))]>
           (<["username" := VStr (SignupRequest.username payload)]> ∅) /\
  db_user d' =
  (db_user d ++
   [(fresh_oid d,
     User.mk (SignupRequest.username payload) (SignupRequest.email payload)
       (SignupRequest.phone payload)
       (bcrypt_hash salt (SignupRequest.password payload))
       (SignupRequest.name payload) true false)])%list /\
  secret_accepted (SignupRequest.password payload) = true.
Proof.
  destruct (str_truthy (SignupRequest.username payload)) eqn:Hu;
    [|unfold signup; rewrite Hu; discriminate].
  destruct (str_truthy (SignupRequest.password payload)) eqn:Hp;
    [|unfold signup; rewrite Hu, Hp; discriminate].
  rewrite (signup_checked _ _ _ Hu Hp).
  destruct (existsb _ (db_user d)) eqn:Hex; [discriminate|].
  rewrite signup_user_doc.
  destruct (secret_accepted _) eqn:Hacc; cbn [negb]; [|discriminate].
  destruct (_ && _); [|discriminate].
  intros [= <- <-]. repeat split.
  intros x Hx. assert (Hx' := proj1 (existsb_none _ _) Hex x Hx). simpl in Hx'.
  now apply orb_false_elim in Hx' as [[Hc _]%orb_false_elim _].
Qed.

(** X9: whoever has signed up can log in: after a successful [signup],
    a [login] with the same username and password succeeds on the new
    state and returns the id that the signup returned, provided the
    hasher verifies the password against the hash it produced. *)
Theorem signup_then_login (salt : string) (payload : SignupRequest.t)
    (d d' : Database) (resp : document) :
  bcrypt_verify (SignupRequest.password payload)
    (bcrypt_hash salt (SignupRequest.password payload)) = Some true ->
  signup salt payload (Some d) = (Ok resp, Some d') ->
  exists i,
    resp !! "id" = Some (VStr i) /\
    login (LoginRequest.mk (Some (SignupRequest.username payload)) None
             (SignupRequest.password payload)) (Some d') =
    Ok (<["id" := VStr i]>
       (<["username" := VStr (SignupRequest.username payload)]>
       (<["name" := opt_str (SignupRequest.name payload)]> ∅))).
Proof.
  intros Hlaw (Hu & Hp & Hfree & -> & Husers & Hacc)%signup_ok_inv.
  eexists. split; [apply lookup_insert_eq|].
  rewrite login_checked; [|exact Hp|left; exact Hu].
  rewrite Husers, find_appended.
  - cbn [fst snd User.username User.password_hash User.name LoginRequest.password].
    now rewrite (proj2 (passlib_verify_true _ _) (conj Hacc Hlaw)).
  - intros x Hx. specialize (Hfree x Hx). unfold conflicts_with in Hfree.
    apply orb_false_elim in Hfree as [[Hname _]%orb_false_elim _].
    unfold identified_by. cbn. now rewrite Hu, Hname.
  - unfold identified_by. cbn. now rewrite Hu, String.eqb_refl.
Qed.


(** X11: [seed] makes the demo account usable: from a store without a
    user named "demo", after [seed] a login as "demo" with the password
    "demo123" succeeds and returns the name "Demo User", provided the
    hasher verifies the password against the hash it produced. *)
Theorem seed_then_login_demo (salt : string) (d : Database) :
  (forall x, In x (db_user d) -> User.username (snd x) <> "demo") ->
  bcrypt_verify "demo123" (bcrypt_hash salt "demo123") = Some true ->
  exists r d' i,
    seed salt (Some d) = (Ok r, Some d') /\
    login (LoginRequest.mk (Some "demo") None "demo123") (Some d') =
    Ok (<["id" := VStr i]>
       (<["username" := VStr "demo"]>
       (<["name" := VStr "Demo User"]> ∅))).
Proof.
  intros Hnone Hlaw. do 3 eexists. split; [apply seed_run|].
  assert (Habsent : present_by User.username "demo" (db_user d) = false).
  { apply existsb_none. intros x Hx. apply String.eqb_neq.
    intros Heq. now apply (Hnone x Hx). }
  rewrite login_checked; [|reflexivity|left; reflexivity].
  unfold seeded. cbn [db_user ensure_all User.username]. rewrite Habsent. cbn [fst].
  rewrite find_appended.
  - cbn [fst snd User.username User.password_hash User.name LoginRequest.password].
    now rewrite (proj2 (passlib_verify_true "demo123" _)
                   (conj (eq_refl : secret_accepted "demo123" = true) Hlaw)).
  - intros x Hx.
    change (identified_by (LoginRequest.mk (Some "demo") None "demo123") (snd x))
      with (String.eqb "demo" (User.username (snd x)) && true).
    rewrite andb_true_r. apply String.eqb_neq. intros Heq. now apply (Hnone x Hx).
  - reflexivity.
Qed.

End Accounts.

Section ProductEndpoints.
Context `{Collaborators}.

(** X12: a product that [create_product] has stored is what the full
    listing returns last: [list_products] without filters, limit or skip
    gives, after the call, the listing it gave before followed by the
    new product, with the id that the call returned and the defaults of
    the model (rating 4.5, rating_count 0, in_stock true). *)
Theorem create_product_then_list
    (payload : CreateProduct.t) (d d' : Database) (resp : document) :
  create_product payload (Some d) = (Ok resp, Some d') ->
  exists rs i,
    list_products None None 0 0 (Some d) = Ok rs /\
    resp !! "id" = Some (VStr i) /\
    list_products None None 0 0 (Some d') =
    Ok (rs ++ [Some (<["id" := VStr i]>
                    (Product.model_dump
                       (Product.mk (CreateProduct.title payload)
                          (CreateProduct.description payload)
                          (CreateProduct.price payload)
                          (CreateProduct.category payload)
                          (CreateProduct.image payload)
                          (Some 4.5%float) (Some 0) true)))])%list.
Proof.
  assert (Hall : forall l : list (ObjectId * Product.t),
            List.filter (fun x => satisfies None None (snd x)) l = l).
  { intros l. rewrite (filter_pointwise _ (fun _ => true)) by reflexivity.
    induction l as [|x l IH]; simpl; congruence. }
  assert (Hlist : forall d0, list_products None None 0 0 (Some d0) =
            Ok (map (fun x => to_str_id (Some (product_doc x))) (db_product d0))).
  { intros d0. rewrite list_products_plain by discriminate.
    rewrite Hall. unfold cursor_skip. cbn [Z.ltb Z.compare bind].
    rewrite (find_command_ok_nonneg 0 0) by (split; (reflexivity || discriminate)).
    cbn [negb]. unfold cursor_limit. cbn [Z.eqb].
    change (Z.to_nat 0) with 0%nat. rewrite skipn_O.
    now rewrite map_map. }
  unfold create_product, Product_of, Product.new.
  destruct (PrimFloat.leb _ _); [|discriminate].
  unfold insert_product. intros [= <- <-].
  do 2 eexists. split; [apply Hlist|]. split; [apply lookup_insert_eq|].
  rewrite Hlist. cbn [db_product]. rewrite map_app. cbn [map].
  unfold product_doc at 2. cbn [fst snd].
  now rewrite to_str_id_with_id by reflexivity.
Qed.

Lemma firstn_add {A : Type} (n m : nat) (l : list A) :
  firstn (n + m) l = (firstn n l ++ firstn m (skipn n l))%list.
Proof.
  revert l. induction n as [|n IH]; intros l; [reflexivity|].
  destruct l as [|a l]; simpl.
  - now rewrite firstn_nil.
  - now rewrite IH.
Qed.

Lemma skipn_add {A : Type} (n m : nat) (l : list A) :
  skipn (n + m) l = skipn m (skipn n l).
Proof.
  revert l. induction n as [|n IH]; intros l; [reflexivity|].
  destruct l as [|a l]; simpl; [now rewrite skipn_nil|apply IH].
Qed.

(** X14: consecutive pages tile the listing: for a [q] free of
    metacharacters, the page of [a] products after [skip] followed by
    the page of [b] products after [skip + a] is the page of [a + b]
    products after [skip], with no product repeated or left out. *)
Theorem list_products_pages_tile
    (q category : option string) (a b skip : Z) (d : Database) :
  (forall s, q = Some s -> plain s = true) ->
  (0 <= skip)%Z -> (0 < a)%Z -> (0 < b)%Z -> (skip + a + b < 2 ^ 63)%Z ->
  exists p1 p2,
    list_products q category a skip (Some d) = Ok p1 /\
    list_products q category b (skip + a) (Some d) = Ok p2 /\
    list_products q category (a + b) skip (Some d) = Ok (p1 ++ p2)%list.
Proof.
  intros Hq Hs Ha Hb Hmax. do 2 eexists.
  split; [apply list_products_page; [assumption|lia|lia]|].
  split; [apply list_products_page; [assumption|lia|lia]|].
  rewrite list_products_page by (assumption || lia).
  apply (f_equal Ok). rewrite <- map_app. f_equal.
  rewrite !Z2Nat.inj_add by lia. rewrite firstn_add. f_equal.
  now rewrite skipn_add.
Qed.

(** X15: a limit of zero is no limit: for a [q] free of metacharacters
    and [0 <= skip], [list_products] with [limit = 0] returns every
    stored product that passes the filters, in stored order, less the
    first [skip]. *)
Theorem list_products_limit_zero
    (q category : option string) (skip : Z) (d : Database) :
  (forall s, q = Some s -> plain s = true) ->
  (0 <= skip < 2 ^ 63)%Z ->
  list_products q category 0 skip (Some d) =
  Ok (map (fun x => to_str_id (Some (product_doc x)))
        (skipn (Z.to_nat skip)
           (List.filter (fun x => satisfies q category (snd x))
              (db_product d)))).
Proof.
  intros Hq [Hs0 Hs1]. rewrite (list_products_plain _ _ _ _ _ Hq).
  unfold cursor_skip. apply Z.ltb_ge in Hs0. rewrite Hs0. cbn [bind].
  rewrite (find_command_ok_nonneg skip 0) by lia.
  cbn [negb]. unfold cursor_limit. cbn [Z.eqb].
  now rewrite skipn_map, map_map.
Qed.

(** X16: a negative [skip] is not checked by the handler and makes the
    cursor raise: on a configured database [list_products] fails with an
    uncaught [ValueError] whatever the filters, the limit and the store
    are. *)
Theorem list_products_negative_skip
    (q category : option string) (limit skip : Z) (d : Database) :
  (skip < 0)%Z ->
  list_products q category limit skip (Some d) = Uncaught ValueError.
Proof.
  intros Hs. unfold list_products, cursor_skip.
  apply Z.ltb_lt in Hs. now rewrite Hs.
Qed.

End ProductEndpoints.

Section Unconfigured.
Context `{Collaborators}.

(** X17: with the database not configured [login] raises the 500 error
    like the writing endpoints, but [get_product] does not: it still
    answers 400 for a string that is not a well-formed identifier, and
    it answers 404 "Not found" for every well-formed one. *)
Theorem unconfigured_login_and_get_product :
  (forall payload,
      login payload None = HTTPException 500 "Database not configured") /\
  (forall product_id,
      ~ well_formed_id product_id ->
      get_product product_id None = HTTPException 400 "Invalid id") /\
  (forall product_id,
      well_formed_id product_id ->
      get_product product_id None = HTTPException 404 "Not found").
Proof.
  split; [reflexivity|].
  split; intros product_id Hid; rewrite get_product_cases;
    destruct (ObjectId_of_str product_id) as [bytes|] eqn:Hparse;
    try reflexivity.
  - destruct Hid. apply ObjectId_of_str_well_formed. eauto.
  - apply ObjectId_of_str_well_formed in Hid as [bytes Hid]. congruence.
Qed.

End Unconfigured.

(** ** The further properties at concrete requests and stores *)

(** X2 at the store that alice's signup reaches from the empty one. *)
Lemma keys_unique_after_alice :
  users_unique db_after_alice /\ slugs_unique db_after_alice.
Proof.
  apply (@reachable_keys_unique sample_collaborators db_after_alice).
  apply (@reach_signup sample_collaborators empty_db "s" signup_alice
           (Ok (<["id" := VStr "000000000000000000000000"]>
               (<["username" := VStr "alice"]> ∅)))
           db_after_alice (@reach_empty sample_collaborators)).
  vm_compute. reflexivity.
Defined.

(** X8 at alice's login. *)
Lemma login_alice_fields :
  let resp : document :=
    <["id" := VStr "000000000000000000000000"]>
    (<["username" := VStr "alice"]> (<["name" := VNone]> ∅)) in
  is_Some (resp !! "id") /\ is_Some (resp !! "username") /\
  is_Some (resp !! "name") /\
  forall k : string, k <> "id" -> k <> "username" -> k <> "name" -> resp !! k = None.
Proof.
  apply (@login_response_fields sample_collaborators login_alice (Some db_alice)).
  vm_compute. reflexivity.
Defined.

(** X9 at alice's signup on the empty store. *)
Lemma alice_signs_up_then_logs_in :
  exists i,
    (<["id" := VStr "000000000000000000000000"]>
       (<["username" := VStr "alice"]> ∅) : document) !! "id" = Some (VStr i) /\
    @login sample_collaborators
      (LoginRequest.mk (Some (SignupRequest.username signup_alice)) None
         (SignupRequest.password signup_alice)) (Some db_after_alice) =
    Ok (<["id" := VStr i]>
       (<["username" := VStr (SignupRequest.username signup_alice)]>
       (<["name" := opt_str (SignupRequest.name signup_alice)]> ∅))).
Proof.
  apply (@signup_then_login sample_collaborators "s" signup_alice empty_db
           db_after_alice).
  - reflexivity.
  - vm_compute. reflexivity.
Defined.


(** X11 at the empty store. *)
Lemma demo_logs_in_after_seed :
  exists r d' i,
    @seed sample_collaborators "s" (Some empty_db) = (Ok r, Some d') /\
    @login sample_collaborators (LoginRequest.mk (Some "demo") None "demo123")
      (Some d') =
    Ok (<["id" := VStr i]>
       (<["username" := VStr "demo"]>
       (<["name" := VStr "Demo User"]> ∅))).
Proof.
  apply (@seed_then_login_demo sample_collaborators "s" empty_db).
  - intros x [].
  - reflexivity.
Defined.

(** X12 at the creation of a second lamp. *)
Lemma create_lamp_then_list :
  exists rs i,
    @list_products sample_collaborators None None 0 0 (Some db_lamp) = Ok rs /\
    (<["id" := VStr "000000000000000000000001"]> ∅ : document) !! "id"
      = Some (VStr i) /\
    @list_products sample_collaborators None None 0 0
      (Some (mkDatabase [] [] [(0%N, lamp); (1%N, lamp)] [] 2)) =
    Ok (rs ++ [Some (<["id" := VStr i]>
                    (Product.model_dump
                       (Product.mk (CreateProduct.title lamp_request)
                          (CreateProduct.description lamp_request)
                          (CreateProduct.price lamp_request)
                          (CreateProduct.category lamp_request)
                          (CreateProduct.image lamp_request)
                          (Some 4.5%float) (Some 0) true)))])%list.
Proof.
  apply (@create_product_then_list sample_collaborators lamp_request db_lamp
           (mkDatabase [] [] [(0%N, lamp); (1%N, lamp)] [] 2)).
  vm_compute. reflexivity.
Defined.

(** X14 at two pages of one product each. *)
Lemma two_pages_tile :
  exists p1 p2,
    @list_products sample_collaborators None None 1 0 (Some db_two_lamps)
      = Ok p1 /\
    @list_products sample_collaborators None None 1 (0 + 1) (Some db_two_lamps)
      = Ok p2 /\
    @list_products sample_collaborators None None (1 + 1) 0 (Some db_two_lamps)
      = Ok (p1 ++ p2)%list.
Proof.
  apply (@list_products_pages_tile sample_collaborators None None 1 1 0 db_two_lamps).
  - discriminate.
  - discriminate.
  - reflexivity.
  - reflexivity.
  - reflexivity.
Defined.

(** X15 at a listing of the lamps after the first. *)
Lemma lamps_without_limit :
  @list_products sample_collaborators (Some "lamp") None 0 1 (Some db_two_lamps) =
  Ok (map (fun x => @to_str_id sample_collaborators (Some (product_doc x)))
        (skipn (Z.to_nat 1)
           (List.filter (fun x => satisfies (Some "lamp") None (snd x))
              (db_product db_two_lamps)))).
Proof.
  apply (@list_products_limit_zero sample_collaborators (Some "lamp") None 1
           db_two_lamps).
  - intros s [= <-]. reflexivity.
  - split; [discriminate|reflexivity].
Defined.

(** X16 at [skip = -1]. *)
Lemma skip_minus_one_raises :
  @list_products sample_collaborators None None 20 (-1) (Some db_two_lamps) =
  Uncaught ValueError.
Proof.
  apply (@list_products_negative_skip sample_collaborators None None 20 (-1)
           db_two_lamps).
  reflexivity.
Defined.
